(** * web-monitor-buoy: the change-detection run of [monitor.py]

    A shallow embedding of [src/monitor.py] and the properties its
    specification states about it.

    Modelling choices.
    - A Python [str] is a [string], one character per element; [bytes] is a
      [list byte].
    - Dictionaries from names to digests are [gmap string string].  The
      configuration [MONITORED_URLS] is iterated in insertion order, so a
      configuration is the list of its [(name, url)] items; its keys are
      distinct, which theorems assume as [NoDup (cfg.*1)] where they need it.
    - The process is a state-and-exception monad over [Process]: the two
      files the script touches, the console, and counters for the requests
      sent, the clock reads and the seconds slept.  What the outside world
      answers is an [Env]: the response (or [RequestException]) to the k-th
      request of the process, and the text of the k-th clock reading.
    - [url_hashes.json] is only ever written by [json.dump] of a dictionary
      of digests, so the file is absent, holds such a dictionary, or holds
      text that [json.load] rejects with [JSONDecodeError] (what a torn
      write leaves behind).
    - The typed run is the script where nothing escapes.  [Raw] is the
      script again in a world where opening and loading the hash file, and
      a request, may raise any exception; only the exception class an
      [except] clause names is caught.  Where the file is absent, a
      dictionary or invalid JSON and every request returns or raises a
      [RequestException], the two agree ([typed_run_is_raw_run]).  A hash
      file that decodes to something else than a dictionary of strings is
      not modelled.
    - [hashlib.md5] is the MD5 function itself, [requests] and
      [xml.etree.ElementTree] are modelled by what the script uses of them;
      the whitespace [ET.indent] inserts between elements is not modelled. *)

From Stdlib Require Import NArith Strings.Byte Ascii String DecimalString.
From stdpp Require Import gmap strings list fin_maps.

(** ** hashlib.md5 *)

Module MD5.
Local Open Scope N_scope.

Definition mask32 : N := 0xffffffff.
Definition add32 (a b : N) : N := N.land (a + b) mask32.
Definition not32 (a : N) : N := N.lxor a mask32.
Definition rotl32 (x c : N) : N :=
  N.lor (N.land (N.shiftl x c) mask32) (N.shiftr x (32 - c)).

Definition shift_amounts : list N :=
  [7; 12; 17; 22; 7; 12; 17; 22; 7; 12; 17; 22; 7; 12; 17; 22;
   5; 9; 14; 20; 5; 9; 14; 20; 5; 9; 14; 20; 5; 9; 14; 20;
   4; 11; 16; 23; 4; 11; 16; 23; 4; 11; 16; 23; 4; 11; 16; 23;
   6; 10; 15; 21; 6; 10; 15; 21; 6; 10; 15; 21; 6; 10; 15; 21].

(** [floor (2^32 * |sin (i + 1)|)] for [i] from 0 to 63. *)
Definition sine_table : list N :=
  [0xd76aa478; 0xe8c7b756; 0x242070db; 0xc1bdceee; 0xf57c0faf; 0x4787c62a;
   0xa8304613; 0xfd469501; 0x698098d8; 0x8b44f7af; 0xffff5bb1; 0x895cd7be;
   0x6b901122; 0xfd987193; 0xa679438e; 0x49b40821; 0xf61e2562; 0xc040b340;
   0x265e5a51; 0xe9b6c7aa; 0xd62f105d; 0x02441453; 0xd8a1e681; 0xe7d3fbc8;
   0x21e1cde6; 0xc33707d6; 0xf4d50d87; 0x455a14ed; 0xa9e3e905; 0xfcefa3f8;
   0x676f02d9; 0x8d2a4c8a; 0xfffa3942; 0x8771f681; 0x6d9d6122; 0xfde5380c;
   0xa4beea44; 0x4bdecfa9; 0xf6bb4b60; 0xbebfbc70; 0x289b7ec6; 0xeaa127fa;
   0xd4ef3085; 0x04881d05; 0xd9d4d039; 0xe6db99e5; 0x1fa27cf8; 0xc4ac5665;
   0xf4292244; 0x432aff97; 0xab9423a7; 0xfc93a039; 0x655b59c3; 0x8f0ccc92;
   0xffeff47d; 0x85845dd1; 0x6fa87e4f; 0xfe2ce6e0; 0xa3014314; 0x4e0811a1;
   0xf7537e82; 0xbd3af235; 0x2ad7d2bb; 0xeb86d391].

(** The four chaining words A, B, C, D. *)
Record regs := Regs { rA : N; rB : N; rC : N; rD : N }.

Definition init : regs :=
  Regs 0x67452301 0xefcdab89 0x98badcfe 0x10325476.

(** Operation [i] of the 64 applied to a block whose sixteen words are [m]. *)
Definition operation (m : list N) (r : regs) (i : nat) : regs :=
  let '(Regs a b c d) := r in
  let '(f, g) :=
    if (i <? 16)%nat then
      (N.lor (N.land b c) (N.land (not32 b) d), i)
    else if (i <? 32)%nat then
      (N.lor (N.land d b) (N.land (not32 d) c), ((5 * i + 1) mod 16)%nat)
    else if (i <? 48)%nat then
      (N.lxor b (N.lxor c d), ((3 * i + 5) mod 16)%nat)
    else
      (N.lxor c (N.lor b (not32 d)), ((7 * i) mod 16)%nat) in
  let f' := add32 (add32 (add32 f a) (nth i sine_table 0)) (nth g m 0) in
  Regs d (add32 b (rotl32 f' (nth i shift_amounts 0))) b c.

Definition word_le (b0 b1 b2 b3 : N) : N :=
  b0 + N.shiftl b1 8 + N.shiftl b2 16 + N.shiftl b3 24.

Fixpoint words_le (bs : list N) : list N :=
  match bs with
  | b0 :: b1 :: b2 :: b3 :: rest => word_le b0 b1 b2 b3 :: words_le rest
  | _ => []
  end.

Definition compress (r : regs) (block : list N) : regs :=
  let r' := foldl (operation (words_le block)) r (seq 0 64) in
  Regs (add32 (rA r) (rA r')) (add32 (rB r) (rB r'))
       (add32 (rC r) (rC r')) (add32 (rD r) (rD r')).

Fixpoint blocks (n : nat) (bs : list N) : list (list N) :=
  match n with
  | O => []
  | S n' => take 64 bs :: blocks n' (drop 64 bs)
  end.

Definition bytes_le (width : nat) (x : N) : list N :=
  (fun k => N.land (N.shiftr x (8 * N.of_nat k)) 0xff) <$> seq 0 width.

(** A 0x80 byte, zeros up to 56 modulo 64, then the length in bits as a
    64-bit little-endian integer. *)
Definition pad (bs : list N) : list N :=
  let len := length bs in
  let zeros := ((64 + 55 - len mod 64) mod 64)%nat in
  bs ++ [0x80] ++ replicate zeros 0 ++
     bytes_le 8 (N.land (8 * N.of_nat len) 0xffffffffffffffff).

Definition digest_regs (data : list byte) : regs :=
  let padded := pad (Byte.to_N <$> data) in
  foldl compress init (blocks (length padded / 64) padded).

Definition digest (data : list byte) : list N :=
  let r := digest_regs data in
  bytes_le 4 (rA r) ++ bytes_le 4 (rB r) ++ bytes_le 4 (rC r) ++ bytes_le 4 (rD r).

Definition hex_digit (n : N) : ascii :=
  if n <? 10 then ascii_of_N (48 + n) else ascii_of_N (87 + n).

Definition hex_byte (b : N) : string :=
  String (hex_digit (N.shiftr b 4)) (String (hex_digit (N.land b 0xf)) EmptyString).

(** [hashlib.md5(data).hexdigest()] *)
Definition hexdigest (data : list byte) : string :=
  foldr (fun b s => String.append (hex_byte b) s) EmptyString (digest data).

End MD5.

(** ** Python strings *)

(** [s[:n]] *)
Definition slice_to (n : nat) (s : string) : string := substring 0 n s.

(** [str(n)] for a non-negative integer, as an f-string prints [len(...)]. *)
Definition str_of_nat (n : nat) : string := NilZero.string_of_uint (Nat.to_uint n).

(** [s.startswith(pre)] *)
Definition starts_with (pre s : string) : Prop := ∃ rest, s = pre +:+ rest.

Definition newline : string := String "010" EmptyString.

(** ** requests *)

Record Response := {
  status_code : nat;
  reason : string;
  response_url : string;
  content : list byte
}.

(** The exceptions of [requests.exceptions], each with its message. *)
Inductive RequestException :=
| ConnectionError (msg : string)
| Timeout (msg : string)
| HTTPError (msg : string)
| OtherRequestException (msg : string).

(** [str(e)] *)
Definition str_exception (e : RequestException) : string :=
  match e with
  | ConnectionError msg | Timeout msg | HTTPError msg
  | OtherRequestException msg => msg
  end.

(** A computation returns a value or raises a [RequestException]. *)
Inductive outcome (A : Type) :=
| Returned (a : A)
| Raised (e : RequestException).
Arguments Returned {A} a.
Arguments Raised {A} e.

(** [Response.raise_for_status]: an [HTTPError] for a status from 400 to
    599, and nothing for any other status. *)
Definition raise_for_status (r : Response) : outcome unit :=
  if (400 <=? status_code r) && (status_code r <? 500) then
    Raised (HTTPError (str_of_nat (status_code r) +:+ " Client Error: " +:+
                       reason r +:+ " for url: " +:+ response_url r))
  else if (500 <=? status_code r) && (status_code r <? 600) then
    Raised (HTTPError (str_of_nat (status_code r) +:+ " Server Error: " +:+
                       reason r +:+ " for url: " +:+ response_url r))
  else Returned tt.

(** ** xml.etree.ElementTree *)

#[local] Unset Elimination Schemes.
Inductive Element :=
| El (tag : string) (text : option string) (children : list Element).
#[local] Set Elimination Schemes.

(** ** The process and its environment *)

(** What [url_hashes.json] holds when it exists. *)
Inductive hash_file :=
| Undecodable
| Decodable (hashes : gmap string string).

Record Process := {
  hash_storage : option hash_file;
  xml_output : option Element;
  stdout : list string;
  requests_sent : nat;
  clock_reads : nat;
  slept : nat
}.

Record Env := {
  (** the answer to request number [k] of the process, a GET of the url
      with the timeout *)
  network : nat → string → nat → outcome Response;
  (** [datetime.now().isoformat()] at clock reading number [k] *)
  clock : nat → string
}.

Definition M (A : Type) : Type := Process → outcome A * Process.

#[export] Instance M_ret : MRet M := λ A (a : A) p, (Returned a, p).

(** Sequencing: an exception raised by [m] skips [k]. *)
#[export] Instance M_bind : MBind M := λ A B (k : A → M B) (m : M A) p,
  match m p with
  | (Returned a, q) => k a q
  | (Raised e, q) => (Raised e, q)
  end.

(** [try: body except requests.exceptions.RequestException as e: handler] *)
Definition try_except {A} (body : M A) (handler : RequestException → M A) : M A :=
  λ p, match body p with
       | (Returned a, q) => (Returned a, q)
       | (Raised e, q) => handler e q
       end.

Definition lift {A} (o : outcome A) : M A := λ p, (o, p).

Definition print (line : string) : M unit :=
  λ p, (Returned tt,
        {| hash_storage := hash_storage p; xml_output := xml_output p;
           stdout := stdout p ++ [line]; requests_sent := requests_sent p;
           clock_reads := clock_reads p; slept := slept p |}).

Definition time_sleep (seconds : nat) : M unit :=
  λ p, (Returned tt,
        {| hash_storage := hash_storage p; xml_output := xml_output p;
           stdout := stdout p; requests_sent := requests_sent p;
           clock_reads := clock_reads p; slept := slept p + seconds |}).

(** [os.path.exists(HASH_STORAGE_FILE)] and, when the file exists,
    [json.load] of it: [None] for a missing file, [Undecodable] when
    [json.load] raises [JSONDecodeError]. *)
Definition read_hash_storage : M (option hash_file) :=
  λ p, (Returned (hash_storage p), p).

(** [json.dump(d, f, indent=4)] into [HASH_STORAGE_FILE] opened with ['w'] *)
Definition json_dump (d : gmap string string) : M unit :=
  λ p, (Returned tt,
        {| hash_storage := Some (Decodable d); xml_output := xml_output p;
           stdout := stdout p; requests_sent := requests_sent p;
           clock_reads := clock_reads p; slept := slept p |}).

(** [tree.write(XML_OUTPUT_FILE, ...)] *)
Definition tree_write (root : Element) : M unit :=
  λ p, (Returned tt,
        {| hash_storage := hash_storage p; xml_output := Some root;
           stdout := stdout p; requests_sent := requests_sent p;
           clock_reads := clock_reads p; slept := slept p |}).

Section WithEnv.
Context (env : Env).

(** [requests.get(url, timeout=timeout)] *)
Definition requests_get (url : string) (timeout : nat) : M Response :=
  λ p, (network env (requests_sent p) url timeout,
        {| hash_storage := hash_storage p; xml_output := xml_output p;
           stdout := stdout p; requests_sent := S (requests_sent p);
           clock_reads := clock_reads p; slept := slept p |}).

(** [datetime.now().isoformat()] *)
Definition datetime_now_isoformat : M string :=
  λ p, (Returned (clock env (clock_reads p)),
        {| hash_storage := hash_storage p; xml_output := xml_output p;
           stdout := stdout p; requests_sent := requests_sent p;
           clock_reads := S (clock_reads p); slept := slept p |}).

End WithEnv.

(** ** monitor.py *)

(** One entry of [changes_detected]: the dictionary with the keys [name],
    [url], [timestamp], [status] and [hash_change]. *)
Record change := {
  change_name : string;
  change_url : string;
  change_timestamp : string;
  change_status : string;
  change_hash_change : string
}.

Definition MONITORED_URLS : list (string * string) :=
  [("Google_Homepage", "https://www.google.com");
   ("UWM Press Releases", "https://www.uwm.com/press-releases")].
Definition HASH_STORAGE_FILE : string := "url_hashes.json".
Definition XML_OUTPUT_FILE : string := "monitoring_report.xml".

(** [name in d] *)
Definition py_in (name : string) (d : gmap string string) : bool :=
  bool_decide (is_Some (d !! name)).

Section Monitor.
Context (env : Env).

(** Lines 20-26: the last known hashes. *)
Definition load_last_hashes : M (gmap string string) :=
  f ← read_hash_storage;
  match f with
  | None => mret ∅
  | Some (Decodable hashes) => mret hashes
  | Some Undecodable =>
      print ("Warning: Could not decode " +:+ HASH_STORAGE_FILE +:+
             ". Starting fresh.");;
      mret ∅
  end.

(** Lines 32-75: the body of the loop over the monitored targets.  The two
    statements of the [try] block that can raise come before its first
    assignment, so the handler sees [current_hashes] and [changes_detected]
    as they were when the iteration began. *)
Definition loop_body (last_hashes : gmap string string) (target : string * string)
    (locals : gmap string string * list change)
  : M (gmap string string * list change) :=
  let '(name, url) := target in
  let '(current_hashes, changes_detected) := locals in
  locals' ← try_except
    (response ← requests_get env url 15;
     lift (raise_for_status response);;
     let content_hash := MD5.hexdigest (content response) in
     let current_hashes := <[name := content_hash]> current_hashes in
     if py_in name last_hashes
        && bool_decide (last_hashes !!! name ≠ content_hash) then
       print ("🚨 Change detected on: " +:+ name);;
       now ← datetime_now_isoformat env;
       mret (current_hashes, changes_detected ++ [
         {| change_name := name;
            change_url := url;
            change_timestamp := now;
            change_status := "Content Changed";
            change_hash_change :=
              "Old: " +:+ slice_to 8 (last_hashes !!! name) +:+
              "... -> New: " +:+ slice_to 8 content_hash +:+ "..." |}])
     else if negb (py_in name last_hashes) then
       now ← datetime_now_isoformat env;
       mret (current_hashes, changes_detected ++ [
         {| change_name := name;
            change_url := url;
            change_timestamp := now;
            change_status := "Initial Check (No history recorded)";
            change_hash_change :=
              "Initial Hash: " +:+ slice_to 8 content_hash +:+ "..." |}])
     else
       print ("✅ No change for: " +:+ name);;
       mret (current_hashes, changes_detected))
    (λ e,
       print ("❌ Error checking " +:+ name +:+ " (" +:+ url +:+ "): " +:+
              str_exception e);;
       now ← datetime_now_isoformat env;
       mret (current_hashes, changes_detected ++ [
         {| change_name := name;
            change_url := url;
            change_timestamp := now;
            change_status := "Error: " +:+ str_exception e;
            change_hash_change := "N/A" |}]));
  time_sleep 1;;
  mret locals'.

(** [for name, url in items: ...] *)
Fixpoint loop (last_hashes : gmap string string) (items : list (string * string))
    (locals : gmap string string * list change)
  : M (gmap string string * list change) :=
  match items with
  | [] => mret locals
  | target :: rest =>
      locals' ← loop_body last_hashes target locals;
      loop last_hashes rest locals'
  end.

(** [check_for_changes()], with the global [MONITORED_URLS] as [cfg]. *)
Definition check_for_changes (cfg : list (string * string)) : M (list change) :=
  last_hashes ← load_last_hashes;
  locals ← loop last_hashes cfg (∅, []);
  json_dump locals.1;;
  mret locals.2.

(** The [ChangeItem] element built for one entry of [changes]. *)
Definition ChangeItem (c : change) : Element :=
  El "ChangeItem" None
    [El "Name" (Some (change_name c)) [];
     El "URL" (Some (change_url c)) [];
     El "Timestamp" (Some (change_timestamp c)) [];
     El "Status" (Some (change_status c)) [];
     El "HashDetails" (Some (change_hash_change c)) []].

(** [generate_xml_report(changes)] *)
Definition generate_xml_report (changes : list change) : M unit :=
  let status_text :=
    if bool_decide (changes ≠ []) then
      str_of_nat (length changes) +:+ " Change(s) or Initial Check(s) Detected."
    else "No changes detected since the last run." in
  generated ← datetime_now_isoformat env;
  let root :=
    El "MonitoringReport" None
      ([El "Status" (Some status_text) [];
        El "TimestampGenerated" (Some generated) []]
       ++ (ChangeItem <$> changes)) in
  tree_write root;;
  print (newline +:+ "Report written to " +:+ XML_OUTPUT_FILE).

(** The [if __name__ == "__main__":] block. *)
Definition main (cfg : list (string * string)) : M unit :=
  print "--- Web Monitoring Buoy Started ---";;
  recent_changes ← check_for_changes cfg;
  generate_xml_report recent_changes;;
  print "--- Monitoring Run Complete ---".

End Monitor.

(** ** Reading a run *)

(** The mapping that loading the hash store yields. *)
Definition persisted (f : option hash_file) : gmap string string :=
  match f with
  | Some (Decodable hashes) => hashes
  | _ => ∅
  end.

(** What the two raising statements of the [try] block yield when the
    request is number [k] of the process: the body to hash, or the
    exception the handler receives. *)
Definition attempt (env : Env) (k : nat) (url : string) : outcome (list byte) :=
  match network env k url 15 with
  | Returned response =>
      match raise_for_status response with
      | Returned _ => Returned (content response)
      | Raised e => Raised e
      end
  | Raised e => Raised e
  end.

(** The process after it printed [lines], sent [nreq] requests, read the
    clock [nclk] times and slept [nsec] seconds. *)
Definition advance (p : Process) (lines : list string) (nreq nclk nsec : nat)
  : Process :=
  {| hash_storage := hash_storage p; xml_output := xml_output p;
     stdout := stdout p ++ lines; requests_sent := requests_sent p + nreq;
     clock_reads := clock_reads p + nclk; slept := slept p + nsec |}.

(** One iteration, read off as three pure functions of the attempt's
    outcome: the new [current_hashes], the entries appended to
    [changes_detected] (stamped [now]), and the lines printed. *)
Definition recorded (name : string) (o : outcome (list byte))
    (current_hashes : gmap string string) : gmap string string :=
  match o with
  | Returned body => <[name := MD5.hexdigest body]> current_hashes
  | Raised _ => current_hashes
  end.

Definition reported (last_hashes : gmap string string) (name url : string)
    (o : outcome (list byte)) (now : string) : list change :=
  match o with
  | Returned body =>
      match last_hashes !! name with
      | Some old =>
          if decide (old = MD5.hexdigest body) then []
          else [{| change_name := name; change_url := url;
                   change_timestamp := now;
                   change_status := "Content Changed";
                   change_hash_change :=
                     "Old: " +:+ slice_to 8 old +:+ "... -> New: " +:+
                     slice_to 8 (MD5.hexdigest body) +:+ "..." |}]
      | None =>
          [{| change_name := name; change_url := url;
              change_timestamp := now;
              change_status := "Initial Check (No history recorded)";
              change_hash_change :=
                "Initial Hash: " +:+ slice_to 8 (MD5.hexdigest body) +:+ "..." |}]
      end
  | Raised e =>
      [{| change_name := name; change_url := url;
          change_timestamp := now;
          change_status := "Error: " +:+ str_exception e;
          change_hash_change := "N/A" |}]
  end.

Definition logged (last_hashes : gmap string string) (name url : string)
    (o : outcome (list byte)) : list string :=
  match o with
  | Returned body =>
      match last_hashes !! name with
      | Some old =>
          if decide (old = MD5.hexdigest body)
          then ["✅ No change for: " +:+ name]
          else ["🚨 Change detected on: " +:+ name]
      | None => []
      end
  | Raised e =>
      ["❌ Error checking " +:+ name +:+ " (" +:+ url +:+ "): " +:+
       str_exception e]
  end.

(** The same for the whole loop, whose first request is number [k] and
    whose first clock reading is number [c]. *)
Fixpoint records (env : Env) (items : list (string * string)) (k : nat)
    (current_hashes : gmap string string) : gmap string string :=
  match items with
  | [] => current_hashes
  | (name, url) :: rest =>
      records env rest (S k) (recorded name (attempt env k url) current_hashes)
  end.

Fixpoint reports (env : Env) (last_hashes : gmap string string)
    (items : list (string * string)) (k c : nat) : list change :=
  match items with
  | [] => []
  | (name, url) :: rest =>
      let new := reported last_hashes name url (attempt env k url) (clock env c) in
      new ++ reports env last_hashes rest (S k) (c + length new)
  end.

Fixpoint logs (env : Env) (last_hashes : gmap string string)
    (items : list (string * string)) (k : nat) : list string :=
  match items with
  | [] => []
  | (name, url) :: rest =>
      logged last_hashes name url (attempt env k url)
      ++ logs env last_hashes rest (S k)
  end.

(** A target is left out of the report when its body hashes to the digest
    the store already holds for its name. *)
Definition unchanged (last_hashes : gmap string string) (name : string)
    (o : outcome (list byte)) : bool :=
  match o with
  | Returned body => bool_decide (last_hashes !! name = Some (MD5.hexdigest body))
  | Raised _ => false
  end.

Definition target_of (c : change) : string * string :=
  (change_name c, change_url c).

(** The line the load prints: the warning when the file does not decode. *)
Definition load_warning (f : option hash_file) : list string :=
  match f with
  | Some Undecodable =>
      ["Warning: Could not decode url_hashes.json. Starting fresh."]
  | _ => []
  end.

(** ** The script when the load or a request raises any exception

    The run above is the script in a world where the hash file, when it
    exists, is a dictionary of digests or text that [json.load] rejects,
    and where a request returns or raises a [RequestException].  [Raw] is
    the same script in any world: opening and loading the file, and a
    request, may raise any exception, and an [except] clause catches the
    class it names and nothing else. *)

Module Raw.

Inductive exception :=
| RequestError (e : RequestException)
| JSONDecodeError (msg : string)
| UnicodeDecodeError (msg : string)
| OtherException (kind msg : string).

Inductive result (A : Type) :=
| Ok (a : A)
| Exc (e : exception).
Arguments Ok {A} a.
Arguments Exc {A} e.

(** The request raises the [RequestException] [e]: [requests.get] raised
    it, or the response has a status from 400 to 599, for which
    [raise_for_status] raises it. *)
Definition request_fails (r : result Response) (e : RequestException) : Prop :=
  r = Exc (RequestError e)
  ∨ ∃ response, r = Ok response
      ∧ 400 ≤ status_code response < 600
      ∧ raise_for_status response = Raised e.

Record Process := {
  (** [None] when [os.path.exists(HASH_STORAGE_FILE)] is false, else what
      opening the file and [json.load] do: return the dictionary or raise *)
  hash_storage : option (result (gmap string string));
  xml_output : option Element;
  stdout : list string;
  requests_sent : nat;
  clock_reads : nat;
  slept : nat
}.

Record Env := {
  network : nat → string → nat → result Response;
  clock : nat → string
}.

Definition R (A : Type) : Type := Process → result A * Process.

#[global] Instance R_ret : MRet R := λ A (a : A) p, (Ok a, p).

#[global] Instance R_bind : MBind R := λ A B (k : A → R B) (m : R A) p,
  match m p with
  | (Ok a, q) => k a q
  | (Exc e, q) => (Exc e, q)
  end.

(** [try: body except json.JSONDecodeError: handler] *)
Definition try_except_JSONDecodeError {A} (body : R A) (handler : R A) : R A :=
  λ p, match body p with
       | (Exc (JSONDecodeError _), q) => handler q
       | r => r
       end.

(** [try: body except requests.exceptions.RequestException as e: handler] *)
Definition try_except_RequestException {A} (body : R A)
    (handler : RequestException → R A) : R A :=
  λ p, match body p with
       | (Exc (RequestError e), q) => handler e q
       | r => r
       end.

Definition print (line : string) : R unit :=
  λ p, (Ok tt,
        {| hash_storage := hash_storage p; xml_output := xml_output p;
           stdout := stdout p ++ [line]; requests_sent := requests_sent p;
           clock_reads := clock_reads p; slept := slept p |}).

Definition time_sleep (seconds : nat) : R unit :=
  λ p, (Ok tt,
        {| hash_storage := hash_storage p; xml_output := xml_output p;
           stdout := stdout p; requests_sent := requests_sent p;
           clock_reads := clock_reads p; slept := slept p + seconds |}).

(** [os.path.exists(HASH_STORAGE_FILE)] *)
Definition os_path_exists : R bool :=
  λ p, (Ok (bool_decide (is_Some (hash_storage p))), p).

(** [with open(HASH_STORAGE_FILE, 'r') as f: json.load(f)] *)
Definition json_load : R (gmap string string) :=
  λ p, match hash_storage p with
       | Some r => (r, p)
       | None => (Exc (OtherException "FileNotFoundError" HASH_STORAGE_FILE), p)
       end.

(** [json.dump(d, f, indent=4)] into [HASH_STORAGE_FILE] opened with ['w'] *)
Definition json_dump (d : gmap string string) : R unit :=
  λ p, (Ok tt,
        {| hash_storage := Some (Ok d); xml_output := xml_output p;
           stdout := stdout p; requests_sent := requests_sent p;
           clock_reads := clock_reads p; slept := slept p |}).

(** [tree.write(XML_OUTPUT_FILE, ...)] *)
Definition tree_write (root : Element) : R unit :=
  λ p, (Ok tt,
        {| hash_storage := hash_storage p; xml_output := Some root;
           stdout := stdout p; requests_sent := requests_sent p;
           clock_reads := clock_reads p; slept := slept p |}).

(** [response.raise_for_status()] *)
Definition raise_for_status (response : Response) : R unit :=
  λ p, (match raise_for_status response with
        | Returned _ => Ok tt
        | Raised e => Exc (RequestError e)
        end, p).

Section WithEnv.
Context (env : Env).

(** [requests.get(url, timeout=timeout)] *)
Definition requests_get (url : string) (timeout : nat) : R Response :=
  λ p, (network env (requests_sent p) url timeout,
        {| hash_storage := hash_storage p; xml_output := xml_output p;
           stdout := stdout p; requests_sent := S (requests_sent p);
           clock_reads := clock_reads p; slept := slept p |}).

(** [datetime.now().isoformat()] *)
Definition datetime_now_isoformat : R string :=
  λ p, (Ok (clock env (clock_reads p)),
        {| hash_storage := hash_storage p; xml_output := xml_output p;
           stdout := stdout p; requests_sent := requests_sent p;
           clock_reads := S (clock_reads p); slept := slept p |}).

(** Lines 20-26. *)
Definition load_last_hashes : R (gmap string string) :=
  found ← os_path_exists;
  if found : bool then
    try_except_JSONDecodeError
      json_load
      (print ("Warning: Could not decode " +:+ HASH_STORAGE_FILE +:+
              ". Starting fresh.");;
       mret ∅)
  else mret ∅.

(** Lines 32-75. *)
Definition loop_body (last_hashes : gmap string string) (target : string * string)
    (locals : gmap string string * list change)
  : R (gmap string string * list change) :=
  let '(name, url) := target in
  let '(current_hashes, changes_detected) := locals in
  locals' ← try_except_RequestException
    (response ← requests_get url 15;
     raise_for_status response;;
     let content_hash := MD5.hexdigest (content response) in
     let current_hashes := <[name := content_hash]> current_hashes in
     if py_in name last_hashes
        && bool_decide (last_hashes !!! name ≠ content_hash) then
       print ("🚨 Change detected on: " +:+ name);;
       now ← datetime_now_isoformat;
       mret (current_hashes, changes_detected ++ [
         {| change_name := name;
            change_url := url;
            change_timestamp := now;
            change_status := "Content Changed";
            change_hash_change :=
              "Old: " +:+ slice_to 8 (last_hashes !!! name) +:+
              "... -> New: " +:+ slice_to 8 content_hash +:+ "..." |}])
     else if negb (py_in name last_hashes) then
       now ← datetime_now_isoformat;
       mret (current_hashes, changes_detected ++ [
         {| change_name := name;
            change_url := url;
            change_timestamp := now;
            change_status := "Initial Check (No history recorded)";
            change_hash_change :=
              "Initial Hash: " +:+ slice_to 8 content_hash +:+ "..." |}])
     else
       print ("✅ No change for: " +:+ name);;
       mret (current_hashes, changes_detected))
    (λ e,
       print ("❌ Error checking " +:+ name +:+ " (" +:+ url +:+ "): " +:+
              str_exception e);;
       now ← datetime_now_isoformat;
       mret (current_hashes, changes_detected ++ [
         {| change_name := name;
            change_url := url;
            change_timestamp := now;
            change_status := "Error: " +:+ str_exception e;
            change_hash_change := "N/A" |}]));
  time_sleep 1;;
  mret locals'.

Fixpoint loop (last_hashes : gmap string string) (items : list (string * string))
    (locals : gmap string string * list change)
  : R (gmap string string * list change) :=
  match items with
  | [] => mret locals
  | target :: rest =>
      locals' ← loop_body last_hashes target locals;
      loop last_hashes rest locals'
  end.

Definition check_for_changes (cfg : list (string * string)) : R (list change) :=
  last_hashes ← load_last_hashes;
  locals ← loop last_hashes cfg (∅, []);
  json_dump locals.1;;
  mret locals.2.

Definition generate_xml_report (changes : list change) : R unit :=
  let status_text :=
    if bool_decide (changes ≠ []) then
      str_of_nat (length changes) +:+ " Change(s) or Initial Check(s) Detected."
    else "No changes detected since the last run." in
  generated ← datetime_now_isoformat;
  let root :=
    El "MonitoringReport" None
      ([El "Status" (Some status_text) [];
        El "TimestampGenerated" (Some generated) []]
       ++ (ChangeItem <$> changes)) in
  tree_write root;;
  print (newline +:+ "Report written to " +:+ XML_OUTPUT_FILE).

Definition main (cfg : list (string * string)) : R unit :=
  print "--- Web Monitoring Buoy Started ---";;
  recent_changes ← check_for_changes cfg;
  generate_xml_report recent_changes;;
  print "--- Monitoring Run Complete ---".

End WithEnv.

End Raw.

(** A request that returns or raises a [RequestException]: what the
    typed run takes every request to be. *)
Definition request_ok (r : Raw.result Response) : Prop :=
  match r with
  | Raw.Ok _ | Raw.Exc (Raw.RequestError _) => True
  | Raw.Exc _ => False
  end.

(** A hash file that is absent, holds a dictionary, or makes [json.load]
    raise [JSONDecodeError]: what the typed run takes the file to be. *)
Definition load_ok (f : option (Raw.result (gmap string string))) : Prop :=
  match f with
  | None | Some (Raw.Ok _) | Some (Raw.Exc (Raw.JSONDecodeError _)) => True
  | Some (Raw.Exc _) => False
  end.

Definition typed_outcome {A} (r : Raw.result A) : outcome A :=
  match r with
  | Raw.Ok a => Returned a
  | Raw.Exc (Raw.RequestError e) => Raised e
  | Raw.Exc _ => Raised (OtherRequestException "")
  end.

Definition typed_env (env : Raw.Env) : Env :=
  {| network := λ k url timeout, typed_outcome (Raw.network env k url timeout);
     clock := Raw.clock env |}.

Definition typed_file (r : Raw.result (gmap string string)) : hash_file :=
  match r with
  | Raw.Ok hashes => Decodable hashes
  | Raw.Exc _ => Undecodable
  end.

Definition typed_process (p : Raw.Process) : Process :=
  {| hash_storage := typed_file <$> Raw.hash_storage p;
     xml_output := Raw.xml_output p;
     stdout := Raw.stdout p;
     requests_sent := Raw.requests_sent p;
     clock_reads := Raw.clock_reads p;
     slept := Raw.slept p |}.

(** The raw process after it printed [lines], sent [nreq] requests, read
    the clock [nclk] times and slept [nsec] seconds. *)
Definition raw_advance (p : Raw.Process) (lines : list string)
    (nreq nclk nsec : nat) : Raw.Process :=
  {| Raw.hash_storage := Raw.hash_storage p;
     Raw.xml_output := Raw.xml_output p;
     Raw.stdout := Raw.stdout p ++ lines;
     Raw.requests_sent := Raw.requests_sent p + nreq;
     Raw.clock_reads := Raw.clock_reads p + nclk;
     Raw.slept := Raw.slept p + nsec |}.

(** ** The statements the code does not meet, as they are worded *)

(** A failed fetch leaves the target's entry of the persisted store as it
    was before the run, and an Error entry is reported. *)
Definition failed_fetch_keeps_entry (env : Env) (cfg : list (string * string))
    (p : Process) : Prop :=
  ∀ i name url e,
    cfg !! i = Some (name, url) →
    attempt env (requests_sent p + i) url = Raised e →
    let run := check_for_changes env cfg p in
    persisted (hash_storage run.2) !! name = persisted (hash_storage p) !! name
    ∧ ∃ changes c, run.1 = Returned changes ∧ c ∈ changes
        ∧ change_name c = name ∧ starts_with "Error: " (change_status c).

(** A request fails when it raises or is answered with a status outside
    200-299. *)
Definition fetch_fails (o : outcome Response) : Prop :=
  match o with
  | Raised _ => True
  | Returned response => ¬ (200 ≤ status_code response < 300)
  end.

(** Every failed fetch is reported as an Error. *)
Definition every_failure_is_an_error (env : Env) (cfg : list (string * string))
    (p : Process) : Prop :=
  ∀ i name url,
    cfg !! i = Some (name, url) →
    fetch_fails (network env (requests_sent p + i) url 15) →
    ∃ changes c, (check_for_changes env cfg p).1 = Returned changes
      ∧ c ∈ changes ∧ change_name c = name
      ∧ starts_with "Error: " (change_status c).

(** The request raises [e]: [requests.get] raised it, or the response has
    a status from 400 to 599 and [raise_for_status] raised it. *)
Definition request_fails (o : outcome Response) (e : RequestException) : Prop :=
  o = Raised e
  ∨ ∃ response, o = Returned response
      ∧ 400 ≤ status_code response < 600
      ∧ raise_for_status response = Raised e.

(** Between two runs no body changed: whenever both runs fetch a target
    successfully, they fetch the same body. *)
Definition bodies_unchanged (env1 env2 : Env) (cfg : list (string * string))
    (p1 p2 : Process) : Prop :=
  ∀ i name url body1 body2,
    cfg !! i = Some (name, url) →
    attempt env1 (requests_sent p1 + i) url = Returned body1 →
    attempt env2 (requests_sent p2 + i) url = Returned body2 →
    body1 = body2.

(** A second run, started on the store the first run saved and with no
    body changed in between, reports no change and no initial check. *)
Definition rerun_reports_nothing_new (env1 env2 : Env)
    (cfg : list (string * string)) (p1 p2 : Process) : Prop :=
  hash_storage p2 = hash_storage (check_for_changes env1 cfg p1).2 →
  bodies_unchanged env1 env2 cfg p1 p2 →
  ∃ changes2,
    (check_for_changes env2 cfg p2).1 = Returned changes2
    ∧ ∀ c, c ∈ changes2 →
        change_status c ≠ "Content Changed"
        ∧ change_status c ≠ "Initial Check (No history recorded)".

(** A hash file that exists and cannot be parsed: its bytes are not text
    ([UnicodeDecodeError]) or its text is not JSON ([JSONDecodeError]). *)
Definition unparseable (r : Raw.result (gmap string string)) : Prop :=
  ∃ msg, r = Raw.Exc (Raw.JSONDecodeError msg)
         ∨ r = Raw.Exc (Raw.UnicodeDecodeError msg).

(** The load turns every unparseable file into the empty mapping and a
    warning. *)
Definition load_tolerates_unparseable (p : Raw.Process) : Prop :=
  ∀ r, Raw.hash_storage p = Some r → unparseable r →
    ∃ q, Raw.load_last_hashes p = (Raw.Ok ∅, q)
      ∧ Raw.stdout q
        = Raw.stdout p
          ++ ["Warning: Could not decode url_hashes.json. Starting fresh."].

(** ** Sample runs *)

(** A process that starts with [f] as its hash store and no report. *)
Definition boot (f : option hash_file) : Process :=
  {| hash_storage := f; xml_output := None; stdout := [];
     requests_sent := 0; clock_reads := 0; slept := 0 |}.

Definition site_a : string := "https://a.example/".
Definition site_b : string := "https://b.example/".
Definition two_sites : list (string * string) := [("A", site_a); ("B", site_b)].

Definition served (status : nat) (phrase url body : string) : outcome Response :=
  Returned {| status_code := status; reason := phrase; response_url := url;
              content := list_byte_of_string body |}.

Definition sample_clock (k : nat) : string :=
  "2024-05-01T12:00:0" +:+ str_of_nat k.

(** The world in which [site_a] answers [a] and every other url serves
    the body [hello]. *)
Definition world (a : outcome Response) : Env :=
  {| network := λ _ url _,
       if String.eqb url site_a then a else served 200 "OK" url "hello";
     clock := sample_clock |}.

Definition digest_hello : string := "5d41402abc4b2a76b9719d911017c592".
Definition digest_world : string := "7d793037a0760186574b0282f2f435e7".

Definition store (name digest : string) : option hash_file :=
  Some (Decodable {[ name := digest ]}).

Definition server_error : outcome Response :=
  served 500 "Internal Server Error" site_a "oops".
Definition server_error_message : string :=
  "500 Server Error: Internal Server Error for url: https://a.example/".

(** The same for the raw script. *)
Definition raw_boot (f : option (Raw.result (gmap string string)))
  : Raw.Process :=
  {| Raw.hash_storage := f; Raw.xml_output := None; Raw.stdout := [];
     Raw.requests_sent := 0; Raw.clock_reads := 0; Raw.slept := 0 |}.

Definition raw_world (a : Raw.result Response) : Raw.Env :=
  {| Raw.network := λ _ url _,
       if String.eqb url site_a then a
       else Raw.Ok {| status_code := 200; reason := "OK"; response_url := url;
                      content := list_byte_of_string "hello" |};
     Raw.clock := sample_clock |}.

Definition not_utf8 : Raw.exception :=
  Raw.UnicodeDecodeError
    "'utf-8' codec can't decode byte 0xff in position 0: invalid start byte".

Definition bad_host : Raw.exception :=
  Raw.OtherException "LocationParseError" "Failed to parse: a.example".

Definition read_timeout : RequestException := Timeout "Read timed out.".

(** A character of a lower-case hexadecimal numeral. *)
Definition lower_hex (a : ascii) : Prop :=
  a ∈ list_ascii_of_string "0123456789abcdef".

(** * Properties *)

Arguments MD5.hexdigest : simpl never.

Section Loop.
Context (env : Env).

Lemma py_in_lookup name (d : gmap string string) :
  py_in name d = bool_decide (d !! name ≠ None).
Proof.
  unfold py_in. apply bool_decide_ext. rewrite is_Some_alt.
  destruct (d !! name); naive_solver.
Qed.

Lemma loop_body_eq last_hashes name url current_hashes changes_detected p :
  let o := attempt env (requests_sent p) url in
  let new := reported last_hashes name url o (clock env (clock_reads p)) in
  loop_body env last_hashes (name, url) (current_hashes, changes_detected) p
  = (Returned (recorded name o current_hashes, changes_detected ++ new),
     advance p (logged last_hashes name url o) 1 (length new) 1).
Proof.
  intros o new. subst o new.
  unfold loop_body, attempt, try_except, requests_get, advance, recorded,
    reported, logged, mbind, M_bind, mret, M_ret, lift, print,
    datetime_now_isoformat, time_sleep.
  simpl.
  destruct (network env (requests_sent p) url 15) as [response|e]; simpl.
  2: { repeat f_equal; lia. }
  destruct (raise_for_status response) as [[]|e]; simpl.
  2: { repeat f_equal; lia. }
  rewrite py_in_lookup.
  destruct (last_hashes !! name) as [old|] eqn:Hold; simpl.
  - rewrite (lookup_total_correct _ _ _ Hold).
    destruct (decide (old = MD5.hexdigest (content response))) as [->|Hne].
    + rewrite (bool_decide_eq_false_2 (_ ≠ _)) by naive_solver. simpl.
      rewrite app_nil_r. repeat f_equal; lia.
    + rewrite (bool_decide_eq_true_2 (_ ≠ _)) by done. simpl.
      repeat f_equal; lia.
  - rewrite app_nil_r. repeat f_equal; lia.
Qed.

Lemma advance_advance p l1 l2 r1 r2 c1 c2 s1 s2 :
  advance (advance p l1 r1 c1 s1) l2 r2 c2 s2
  = advance p (l1 ++ l2) (r1 + r2) (c1 + c2) (s1 + s2).
Proof.
  unfold advance; simpl. rewrite <- app_assoc. f_equal; lia.
Qed.

Lemma advance_nothing p : advance p [] 0 0 0 = p.
Proof.
  destruct p; unfold advance; simpl. rewrite app_nil_r. f_equal; lia.
Qed.

(** The loop never raises, and it is its pure reading. *)
Lemma loop_eq last_hashes items : ∀ current_hashes changes_detected p,
  loop env last_hashes items (current_hashes, changes_detected) p
  = (Returned (records env items (requests_sent p) current_hashes,
               changes_detected
               ++ reports env last_hashes items (requests_sent p) (clock_reads p)),
     advance p (logs env last_hashes items (requests_sent p)) (length items)
       (length (reports env last_hashes items (requests_sent p) (clock_reads p)))
       (length items)).
Proof.
  induction items as [|[name url] rest IH]; intros cur chg p.
  - simpl. unfold mret, M_ret. rewrite advance_nothing, app_nil_r. done.
  - cbn [loop]. unfold mbind at 1, M_bind at 1.
    rewrite loop_body_eq. rewrite IH. clear IH.
    cbn [advance requests_sent clock_reads records reports logs].
    rewrite !Nat.add_1_r, advance_advance, <- !app_assoc, length_app.
    reflexivity.
Qed.

Lemma load_last_hashes_eq p :
  load_last_hashes p
  = (Returned (persisted (hash_storage p)),
     advance p (load_warning (hash_storage p)) 0 0 0).
Proof.
  unfold load_last_hashes, read_hash_storage, mbind, M_bind, mret, M_ret.
  destruct (hash_storage p) as [[|hashes]|] eqn:Hf; simpl.
  - unfold print, advance. rewrite Hf. repeat f_equal; lia.
  - by rewrite advance_nothing.
  - by rewrite advance_nothing.
Qed.

(** [check_for_changes] never raises; it returns the reports of the loop
    and leaves the records of the loop in the hash store. *)
Lemma check_for_changes_eq cfg p :
  let last_hashes := persisted (hash_storage p) in
  let changes :=
    reports env last_hashes cfg (requests_sent p) (clock_reads p) in
  check_for_changes env cfg p
  = (Returned changes,
     {| hash_storage := Some (Decodable (records env cfg (requests_sent p) ∅));
        xml_output := xml_output p;
        stdout := stdout p ++ load_warning (hash_storage p)
                  ++ logs env last_hashes cfg (requests_sent p);
        requests_sent := requests_sent p + length cfg;
        clock_reads := clock_reads p + length changes;
        slept := slept p + length cfg |}).
Proof.
  intros last_hashes changes. subst last_hashes changes.
  unfold check_for_changes, mbind at 1, M_bind at 1.
  rewrite load_last_hashes_eq.
  unfold mbind at 1, M_bind at 1. rewrite loop_eq.
  unfold mbind, M_bind, json_dump, mret, M_ret.
  cbn [advance requests_sent clock_reads hash_storage xml_output stdout slept
       fst snd].
  rewrite !Nat.add_0_r, <- app_assoc. reflexivity.
Qed.

End Loop.

(** ** The pure reading, target by target *)

Section Reading.
Context (env : Env).
Implicit Types (last_hashes cur : gmap string string).
Implicit Types (items : list (string * string)) (c : change).

Lemma reported_targets last_hashes name url o now :
  target_of <$> reported last_hashes name url o now
  = if unchanged last_hashes name o then [] else [(name, url)].
Proof.
  destruct o as [body|e]; simpl; [|done].
  destruct (last_hashes !! name) as [old|]; simpl.
  - destruct (decide (old = MD5.hexdigest body)) as [->|Hne].
    + by rewrite bool_decide_eq_true_2.
    + rewrite bool_decide_eq_false_2; [done | congruence].
  - done.
Qed.

Lemma reported_target last_hashes name url o now c :
  c ∈ reported last_hashes name url o now → target_of c = (name, url).
Proof.
  intros Hc. pose proof (list_elem_of_fmap_2 target_of _ _ Hc) as Ht.
  rewrite reported_targets in Ht.
  destruct (unchanged last_hashes name o).
  - by apply elem_of_nil in Ht.
  - by apply list_elem_of_singleton in Ht.
Qed.

Lemma recorded_lookup_ne name name' o cur :
  name ≠ name' → recorded name o cur !! name' = cur !! name'.
Proof.
  intros Hne. destruct o; simpl; [by rewrite lookup_insert_ne | done].
Qed.

Lemma recorded_lookup_eq name o cur :
  recorded name o cur !! name
  = match o with
    | Returned body => Some (MD5.hexdigest body)
    | Raised _ => cur !! name
    end.
Proof. destruct o; simpl; [by rewrite lookup_insert_eq | done]. Qed.

Lemma records_notin items : ∀ k cur name,
  name ∉ items.*1 → records env items k cur !! name = cur !! name.
Proof.
  induction items as [|[n u] rest IH]; intros k cur name Hnotin; [done|].
  rewrite fmap_cons, not_elem_of_cons in Hnotin. destruct Hnotin as [Hne Hrest].
  simpl in Hne. cbn [records]. rewrite IH by done.
  by apply recorded_lookup_ne.
Qed.

Lemma records_lookup items : ∀ k cur i name url,
  NoDup items.*1 → items !! i = Some (name, url) →
  records env items k cur !! name
  = recorded name (attempt env (k + i) url) cur !! name.
Proof.
  induction items as [|[n u] rest IH]; intros k cur i name url Hnd Hi; [done|].
  rewrite fmap_cons in Hnd. apply NoDup_cons in Hnd as [Hhead Hnd].
  cbn [records]. destruct i as [|i]; simpl in Hi.
  - injection Hi as -> ->. rewrite Nat.add_0_r. by apply records_notin.
  - rewrite (IH (S k) _ i name url Hnd Hi).
    replace (S k + i) with (k + S i) by lia.
    assert (n ≠ name) as Hne.
    { intros ->. apply Hhead. apply (list_elem_of_fmap_2 fst _ (name, url)).
      by eapply list_elem_of_lookup_2. }
    rewrite !recorded_lookup_eq.
    destruct (attempt env (k + S i) url); [done|].
    by apply recorded_lookup_ne.
Qed.

Lemma reports_targets last_hashes items : ∀ k t0 c,
  c ∈ reports env last_hashes items k t0 → target_of c ∈ items.
Proof.
  induction items as [|[n u] rest IH]; intros k t0 c Hc; [by inversion Hc|].
  cbn [reports] in Hc. apply elem_of_app in Hc as [Hc|Hc].
  - apply reported_target in Hc. rewrite Hc. by left.
  - right. by eapply IH.
Qed.

(** The reports of the loop are those of the targets before target [i],
    then those of target [i], then those of the targets after it. *)
Lemma reports_split last_hashes items : ∀ k t0 i name url,
  items !! i = Some (name, url) →
  ∃ before after t',
    reports env last_hashes items k t0
    = before
      ++ reported last_hashes name url (attempt env (k + i) url) (clock env t')
      ++ after
    ∧ (∀ c, c ∈ before → target_of c ∈ take i items)
    ∧ (∀ c, c ∈ after → target_of c ∈ drop (S i) items).
Proof.
  induction items as [|[n u] rest IH]; intros k t0 i name url Hi; [done|].
  destruct i as [|i]; simpl in Hi.
  - injection Hi as -> ->. rewrite Nat.add_0_r.
    exists [], (reports env last_hashes rest (S k)
                 (t0 + length (reported last_hashes name url (attempt env k url)
                                 (clock env t0)))), t0.
    split; [done|]. split; [by inversion 1|].
    intros c Hc. simpl. by eapply reports_targets.
  - destruct (IH (S k)
               (t0 + length (reported last_hashes n u (attempt env k u) (clock env t0)))
               i name url Hi) as (before & after & t' & Heq & Hb & Ha).
    exists (reported last_hashes n u (attempt env k u) (clock env t0) ++ before),
      after, t'.
    cbn [reports]. rewrite Heq.
    replace (S k + i) with (k + S i) by lia. rewrite <- app_assoc.
    split; [done|]. split; [|done].
    intros c Hc. simpl. apply elem_of_app in Hc as [Hc|Hc].
    + apply reported_target in Hc. rewrite Hc. by left.
    + right. by apply Hb.
Qed.

Lemma NoDup_fst_lookup items i name url :
  NoDup items.*1 → items !! i = Some (name, url) →
  (name ∉ fst <$> take i items) ∧ (name ∉ fst <$> drop (S i) items).
Proof.
  intros Hnd Hi. rewrite <- (take_drop_middle items i (name, url) Hi) in Hnd.
  rewrite fmap_app, fmap_cons in Hnd. simpl in Hnd.
  apply NoDup_app in Hnd as (_ & Hdisj & Hnd).
  apply NoDup_cons in Hnd as [Hnotin _]. split; [|done].
  intros Hin. apply (Hdisj _ Hin). by left.
Qed.

(** With distinct names, the entries of one target in the reports of the
    loop are exactly what that target's iteration appended. *)
Lemma reports_of_target last_hashes items k t0 i name url :
  NoDup items.*1 → items !! i = Some (name, url) →
  ∃ t', ∀ c,
    c ∈ reports env last_hashes items k t0 ∧ change_name c = name
    ↔ c ∈ reported last_hashes name url (attempt env (k + i) url) (clock env t').
Proof.
  intros Hnd Hi.
  destruct (reports_split last_hashes items k t0 i name url Hi)
    as (before & after & t' & Heq & Hb & Ha).
  destruct (NoDup_fst_lookup items i name url Hnd Hi) as [Hnb Hna].
  exists t'. intros c. rewrite Heq, !elem_of_app. split.
  - intros [[Hc|[Hc|Hc]] Hname]; [|done|].
    + exfalso. apply Hnb. rewrite <- Hname.
      apply (list_elem_of_fmap_2 fst _ (target_of c)). by apply Hb.
    + exfalso. apply Hna. rewrite <- Hname.
      apply (list_elem_of_fmap_2 fst _ (target_of c)). by apply Ha.
  - intros Hc. split; [by right; left|].
    apply reported_target in Hc. by inversion Hc.
Qed.

Lemma logs_elem last_hashes items : ∀ k i name url line,
  items !! i = Some (name, url) →
  line ∈ logged last_hashes name url (attempt env (k + i) url) →
  line ∈ logs env last_hashes items k.
Proof.
  induction items as [|[n u] rest IH]; intros k i name url line Hi Hline; [done|].
  cbn [logs]. apply elem_of_app. destruct i as [|i]; simpl in Hi.
  - injection Hi as -> ->. rewrite Nat.add_0_r in Hline. by left.
  - right. apply (IH (S k) i name url); [done|].
    by replace (S k + i) with (k + S i) by lia.
Qed.

Lemma reports_inv last_hashes items : ∀ k t0 c,
  c ∈ reports env last_hashes items k t0 →
  ∃ i name url t',
    items !! i = Some (name, url)
    ∧ c ∈ reported last_hashes name url (attempt env (k + i) url) (clock env t').
Proof.
  induction items as [|[n u] rest IH]; intros k t0 c Hc; [by inversion Hc|].
  cbn [reports] in Hc. apply elem_of_app in Hc as [Hc|Hc].
  - exists 0, n, u, t0. by rewrite Nat.add_0_r.
  - apply IH in Hc as (i & name & url & t' & Hi & Hc).
    exists (S i), name, url, t'. split; [done|].
    by replace (k + S i) with (S k + i) by lia.
Qed.

(** The reports follow the order of the items, leaving out the unchanged. *)
Lemma reports_order last_hashes items : ∀ k t0,
  target_of <$> reports env last_hashes items k t0
  = (filter (λ it, unchanged last_hashes it.2.1 (attempt env it.1 it.2.2) = false)
       (zip (seq k (length items)) items)).*2.
Proof.
  induction items as [|[n u] rest IH]; intros k t0; [done|].
  cbn [reports length seq zip zip_with]. rewrite fmap_app, reported_targets, IH.
  rewrite filter_cons. simpl.
  destruct (unchanged last_hashes n (attempt env k u)) eqn:Hun.
  - rewrite decide_False by done. done.
  - rewrite decide_True by done. done.
Qed.

End Reading.

(** ** One target in a run *)

(** What a run does for the target at position [i] of a configuration with
    distinct names: the digest it leaves in the store, its entries in the
    returned list, and its console lines. *)
Lemma check_for_changes_target env cfg p i name url :
  NoDup cfg.*1 → cfg !! i = Some (name, url) →
  let o := attempt env (requests_sent p + i) url in
  let last_hashes := persisted (hash_storage p) in
  ∃ changes q now,
    check_for_changes env cfg p = (Returned changes, q)
    ∧ persisted (hash_storage q) !! name
      = match o with
        | Returned body => Some (MD5.hexdigest body)
        | Raised _ => None
        end
    ∧ (∀ c, c ∈ changes ∧ change_name c = name
            ↔ c ∈ reported last_hashes name url o now)
    ∧ (∀ line, line ∈ logged last_hashes name url o → line ∈ stdout q)
    ∧ requests_sent q = requests_sent p + length cfg.
Proof.
  intros Hnd Hi o last_hashes.
  destruct (reports_of_target env last_hashes cfg (requests_sent p)
              (clock_reads p) i name url Hnd Hi) as [t' Hrep].
  eexists _, _, (clock env t'). split; [apply check_for_changes_eq|].
  cbn [hash_storage persisted stdout requests_sent].
  split; [|split; [done|split; [|done]]].
  - rewrite (records_lookup env cfg _ _ i name url Hnd Hi), recorded_lookup_eq.
    fold o. by destruct o.
  - intros line Hline. rewrite !elem_of_app. right; right.
    by eapply logs_elem.
Qed.

Lemma error_status_not_changed msg : "Error: " +:+ msg ≠ "Content Changed".
Proof. discriminate. Qed.

Lemma error_status_not_initial msg :
  "Error: " +:+ msg ≠ "Initial Check (No history recorded)".
Proof. discriminate. Qed.

Lemma slice_to_8_hexdigest body :
  String.length (slice_to 8 (MD5.hexdigest body)) = 8.
Proof. reflexivity. Qed.

(** ** The claims *)

(** The digests of the two sample bodies are the MD5 test values. *)
Example hexdigest_hello :
  MD5.hexdigest (list_byte_of_string "hello") = digest_hello.
Proof. vm_compute. reflexivity. Qed.

Example hexdigest_world :
  MD5.hexdigest (list_byte_of_string "world") = digest_world.
Proof. vm_compute. reflexivity. Qed.

Example hexdigest_empty : MD5.hexdigest [] = "d41d8cd98f00b204e9800998ecf8427e".
Proof. vm_compute. reflexivity. Qed.

Example hexdigest_two_blocks :
  MD5.hexdigest (replicate 120 "x"%byte) = "fb98667f98096de92620b64f46e1c5b5".
Proof. vm_compute. reflexivity. Qed.

(** The names of the compiled-in configuration are distinct. *)
Lemma MONITORED_URLS_distinct : NoDup MONITORED_URLS.*1.
Proof. apply (bool_decide_unpack _). vm_compute. reflexivity. Qed.

(** The example of the specification: target A serves [hello] twice, then
    [world], then answers with status 500.  The runs report an initial
    check, nothing, a change and an error; after the fourth run the store
    is empty. *)
Example four_runs :
  let run a f := check_for_changes (world a) [("A", site_a)] (boot f) in
  let r1 := run (served 200 "OK" site_a "hello") None in
  let r2 := run (served 200 "OK" site_a "hello") (hash_storage r1.2) in
  let r3 := run (served 200 "OK" site_a "world") (hash_storage r2.2) in
  let r4 := run server_error (hash_storage r3.2) in
  (λ r, match r.1 with
        | Returned changes =>
            (λ c, (change_status c, change_hash_change c)) <$> changes
        | Raised _ => []
        end) <$> [r1; r2; r3; r4]
  = [[("Initial Check (No history recorded)", "Initial Hash: 5d41402a...")];
     [];
     [("Content Changed", "Old: 5d41402a... -> New: 7d793037...")];
     [("Error: " +:+ server_error_message, "N/A")]]
  ∧ persisted (hash_storage r3.2) = {[ "A" := digest_world ]}
  ∧ persisted (hash_storage r4.2) = ∅.
Proof. vm_compute. done. Qed.

(** C1, as worded, fails: target A holds the digest of [world], its fetch
    is answered with status 500, and after the run the store has no entry
    for A. *)
Lemma failed_fetch_loses_entry :
  ¬ failed_fetch_keeps_entry (world server_error) two_sites
      (boot (store "A" digest_world)).
Proof.
  intros Hclaim.
  destruct (Hclaim 0 "A" site_a (HTTPError server_error_message))
    as [Hkeep _]; [reflexivity | vm_compute; reflexivity |].
  vm_compute in Hkeep. discriminate.
Qed.

(** C1, amended: for every target whose fetch fails during a run, the hash
    store persisted at the end of the run has no entry for that target (a
    digest held before the run is dropped), and an Error entry for the
    target is returned for the report. *)
Theorem failed_fetch_drops_entry env cfg p i name url e :
  NoDup cfg.*1 → cfg !! i = Some (name, url) →
  attempt env (requests_sent p + i) url = Raised e →
  ∃ changes q now,
    check_for_changes env cfg p = (Returned changes, q)
    ∧ persisted (hash_storage q) !! name = None
    ∧ {| change_name := name; change_url := url; change_timestamp := now;
         change_status := "Error: " +:+ str_exception e;
         change_hash_change := "N/A" |} ∈ changes.
Proof.
  intros Hnd Hi Hfail.
  destruct (check_for_changes_target env cfg p i name url Hnd Hi)
    as (changes & q & now & Hrun & Hstore & Hrep & _).
  rewrite Hfail in Hstore, Hrep.
  exists changes, q, now. split; [done|]. split; [done|].
  apply Hrep. simpl. by left.
Qed.

Lemma failed_fetch_drops_entry_witness :
  ∃ changes q now,
    check_for_changes (world server_error) two_sites
      (boot (store "A" digest_world)) = (Returned changes, q)
    ∧ persisted (hash_storage q) !! "A" = None
    ∧ {| change_name := "A"; change_url := site_a; change_timestamp := now;
         change_status := "Error: " +:+ server_error_message;
         change_hash_change := "N/A" |} ∈ changes.
Proof.
  apply (failed_fetch_drops_entry (world server_error) two_sites
           (boot (store "A" digest_world)) 0 "A" site_a
           (HTTPError server_error_message)).
  - apply (bool_decide_unpack _). vm_compute. reflexivity.
  - reflexivity.
  - vm_compute. reflexivity.
Defined.

(** C2: the mapping saved at the end of a run is what the next run loads,
    and it maps exactly the targets fetched successfully in the run, each
    to the digest computed for it in the run. *)
Theorem state_round_trip env cfg p :
  NoDup cfg.*1 →
  ∃ changes q saved,
    check_for_changes env cfg p = (Returned changes, q)
    ∧ hash_storage q = Some (Decodable saved)
    ∧ (∀ p', hash_storage p' = hash_storage q →
             load_last_hashes p' = (Returned saved, p'))
    ∧ (∀ name digest,
         saved !! name = Some digest
         ↔ ∃ i url body,
             cfg !! i = Some (name, url)
             ∧ attempt env (requests_sent p + i) url = Returned body
             ∧ digest = MD5.hexdigest body).
Proof.
  intros Hnd. eexists _, _, _. split; [apply check_for_changes_eq|].
  cbn [hash_storage]. split; [done|]. split.
  - intros p' Hp'. rewrite load_last_hashes_eq, Hp'. simpl.
    by rewrite advance_nothing.
  - intros name digest. split.
    + intros Hsaved.
      destruct (decide (name ∈ cfg.*1)) as [Hin|Hnotin].
      * apply list_elem_of_fmap in Hin as ([n url] & -> & Hin).
        apply list_elem_of_lookup in Hin as [i Hi]. simpl in *.
        rewrite (records_lookup env cfg _ _ i n url Hnd Hi),
          recorded_lookup_eq in Hsaved.
        destruct (attempt env (requests_sent p + i) url) as [body|e] eqn:Ho.
        -- exists i, url, body. by inversion Hsaved.
        -- by rewrite lookup_empty in Hsaved.
      * rewrite records_notin, lookup_empty in Hsaved; done.
    + intros (i & url & body & Hi & Ho & ->).
      by rewrite (records_lookup env cfg _ _ i name url Hnd Hi),
        recorded_lookup_eq, Ho.
Qed.

Lemma state_round_trip_witness :
  ∃ changes q saved,
    check_for_changes (world server_error) two_sites
      (boot (store "A" digest_world)) = (Returned changes, q)
    ∧ hash_storage q = Some (Decodable saved)
    ∧ (∀ p', hash_storage p' = hash_storage q →
             load_last_hashes p' = (Returned saved, p'))
    ∧ (∀ name digest,
         saved !! name = Some digest
         ↔ ∃ i url body,
             two_sites !! i = Some (name, url)
             ∧ attempt (world server_error)
                 (requests_sent (boot (store "A" digest_world)) + i) url
               = Returned body
             ∧ digest = MD5.hexdigest body).
Proof.
  apply (state_round_trip (world server_error) two_sites
           (boot (store "A" digest_world))).
  apply (bool_decide_unpack _). vm_compute. reflexivity.
Defined.

(** C3: a target fetched successfully whose body hashes to a digest other
    than the one stored for its name gets one entry, with status
    [Content Changed] and a detail made of the first eight characters of
    the old and of the new digest, and after the run the store holds the
    new digest for the name. *)
Theorem changed_digest_reported_and_stored env cfg p i name url body old :
  NoDup cfg.*1 → cfg !! i = Some (name, url) →
  attempt env (requests_sent p + i) url = Returned body →
  persisted (hash_storage p) !! name = Some old →
  old ≠ MD5.hexdigest body →
  ∃ changes q now,
    check_for_changes env cfg p = (Returned changes, q)
    ∧ (∀ c, c ∈ changes ∧ change_name c = name
         ↔ c = {| change_name := name; change_url := url;
                  change_timestamp := now;
                  change_status := "Content Changed";
                  change_hash_change :=
                    "Old: " +:+ slice_to 8 old +:+ "... -> New: " +:+
                    slice_to 8 (MD5.hexdigest body) +:+ "..." |})
    ∧ String.length (slice_to 8 (MD5.hexdigest body)) = 8
    ∧ String.length (slice_to 8 old) = min 8 (String.length old)
    ∧ persisted (hash_storage q) !! name = Some (MD5.hexdigest body).
Proof.
  intros Hnd Hi Hok Hold Hne.
  destruct (check_for_changes_target env cfg p i name url Hnd Hi)
    as (changes & q & now & Hrun & Hstore & Hrep & _).
  rewrite Hok in Hstore, Hrep. simpl in Hrep. rewrite Hold in Hrep.
  rewrite decide_False in Hrep by done.
  exists changes, q, now. split; [done|]. split.
  { intros c. rewrite Hrep. apply list_elem_of_singleton. }
  split; [apply slice_to_8_hexdigest|]. split; [|done].
  unfold slice_to. clear. generalize 8. induction old as [|a old IH]; intros n.
  - by destruct n.
  - destruct n as [|n]; [done|]. simpl. by rewrite IH.
Qed.

Lemma changed_digest_reported_and_stored_witness :
  ∃ changes q now,
    check_for_changes (world (served 200 "OK" site_a "world")) two_sites
      (boot (store "A" digest_hello)) = (Returned changes, q)
    ∧ (∀ c, c ∈ changes ∧ change_name c = "A"
         ↔ c = {| change_name := "A"; change_url := site_a;
                  change_timestamp := now;
                  change_status := "Content Changed";
                  change_hash_change :=
                    "Old: " +:+ slice_to 8 digest_hello +:+ "... -> New: " +:+
                    slice_to 8 (MD5.hexdigest (list_byte_of_string "world"))
                    +:+ "..." |})
    ∧ String.length
        (slice_to 8 (MD5.hexdigest (list_byte_of_string "world"))) = 8
    ∧ String.length (slice_to 8 digest_hello)
      = min 8 (String.length digest_hello)
    ∧ persisted (hash_storage q) !! "A"
      = Some (MD5.hexdigest (list_byte_of_string "world")).
Proof.
  apply (changed_digest_reported_and_stored
           (world (served 200 "OK" site_a "world")) two_sites
           (boot (store "A" digest_hello)) 0 "A" site_a
           (list_byte_of_string "world") digest_hello).
  - apply (bool_decide_unpack _). vm_compute. reflexivity.
  - reflexivity.
  - vm_compute. reflexivity.
  - vm_compute. reflexivity.
  - vm_compute. discriminate.
Defined.

(** C4: a target fetched successfully whose body hashes to the digest
    stored for its name gets no entry in the returned list, only a console
    line, and after the run the store holds the same digest for the name. *)
Theorem equal_digest_not_reported env cfg p i name url body :
  NoDup cfg.*1 → cfg !! i = Some (name, url) →
  attempt env (requests_sent p + i) url = Returned body →
  persisted (hash_storage p) !! name = Some (MD5.hexdigest body) →
  ∃ changes q,
    check_for_changes env cfg p = (Returned changes, q)
    ∧ (∀ c, c ∈ changes → change_name c ≠ name)
    ∧ persisted (hash_storage q) !! name = persisted (hash_storage p) !! name
    ∧ "✅ No change for: " +:+ name ∈ stdout q.
Proof.
  intros Hnd Hi Hok Hold.
  destruct (check_for_changes_target env cfg p i name url Hnd Hi)
    as (changes & q & now & Hrun & Hstore & Hrep & Hlog & _).
  rewrite Hok in Hstore, Hrep, Hlog. simpl in Hrep, Hlog.
  rewrite Hold in Hrep, Hlog.
  rewrite decide_True in Hrep by done. rewrite decide_True in Hlog by done.
  exists changes, q. split; [done|]. split; [|split].
  - intros c Hc Hname. by apply (elem_of_nil c), Hrep.
  - by rewrite Hstore, Hold.
  - apply Hlog. by left.
Qed.

Lemma equal_digest_not_reported_witness :
  ∃ changes q,
    check_for_changes (world (served 200 "OK" site_a "hello")) two_sites
      (boot (store "A" digest_hello)) = (Returned changes, q)
    ∧ (∀ c, c ∈ changes → change_name c ≠ "A")
    ∧ persisted (hash_storage q) !! "A"
      = persisted (hash_storage (boot (store "A" digest_hello))) !! "A"
    ∧ "✅ No change for: " +:+ "A" ∈ stdout q.
Proof.
  apply (equal_digest_not_reported
           (world (served 200 "OK" site_a "hello")) two_sites
           (boot (store "A" digest_hello)) 0 "A" site_a
           (list_byte_of_string "hello")).
  - apply (bool_decide_unpack _). vm_compute. reflexivity.
  - reflexivity.
  - vm_compute. reflexivity.
  - vm_compute. reflexivity.
Defined.

(** A digest saved by one run is the one the next run compares with. *)
Lemma saved_digest_is_loaded env1 cfg p1 p2 i name url body :
  NoDup cfg.*1 → cfg !! i = Some (name, url) →
  hash_storage p2 = hash_storage (check_for_changes env1 cfg p1).2 →
  attempt env1 (requests_sent p1 + i) url = Returned body →
  persisted (hash_storage p2) !! name = Some (MD5.hexdigest body).
Proof.
  intros Hnd Hi Hp2 Hok. rewrite Hp2, check_for_changes_eq. simpl.
  by rewrite (records_lookup env1 cfg _ _ i name url Hnd Hi),
    recorded_lookup_eq, Hok.
Qed.

(** C5: a target with no digest under its name gets, on a successful
    fetch, one entry with status [Initial Check (No history recorded)] and
    a detail made of the first eight characters of the new digest; when the
    next run fetches the same body, the target gets no entry at all, only
    the console line of an unchanged target. *)
Theorem initial_exactly_once env1 env2 cfg p1 p2 i name url body :
  NoDup cfg.*1 → cfg !! i = Some (name, url) →
  persisted (hash_storage p1) !! name = None →
  attempt env1 (requests_sent p1 + i) url = Returned body →
  hash_storage p2 = hash_storage (check_for_changes env1 cfg p1).2 →
  attempt env2 (requests_sent p2 + i) url = Returned body →
  ∃ changes1 q1 now changes2 q2,
    check_for_changes env1 cfg p1 = (Returned changes1, q1)
    ∧ (∀ c, c ∈ changes1 ∧ change_name c = name
         ↔ c = {| change_name := name; change_url := url;
                  change_timestamp := now;
                  change_status := "Initial Check (No history recorded)";
                  change_hash_change :=
                    "Initial Hash: " +:+ slice_to 8 (MD5.hexdigest body)
                    +:+ "..." |})
    ∧ String.length (slice_to 8 (MD5.hexdigest body)) = 8
    ∧ check_for_changes env2 cfg p2 = (Returned changes2, q2)
    ∧ (∀ c, c ∈ changes2 → change_name c ≠ name)
    ∧ "✅ No change for: " +:+ name ∈ stdout q2.
Proof.
  intros Hnd Hi Hnone Hok1 Hp2 Hok2.
  pose proof (saved_digest_is_loaded env1 cfg p1 p2 i name url body
                Hnd Hi Hp2 Hok1) as Hold.
  destruct (check_for_changes_target env1 cfg p1 i name url Hnd Hi)
    as (changes1 & q1 & now & Hrun1 & _ & Hrep1 & _).
  destruct (check_for_changes_target env2 cfg p2 i name url Hnd Hi)
    as (changes2 & q2 & now2 & Hrun2 & _ & Hrep2 & Hlog2 & _).
  rewrite Hok1 in Hrep1. simpl in Hrep1. rewrite Hnone in Hrep1.
  rewrite Hok2 in Hrep2, Hlog2. simpl in Hrep2, Hlog2.
  rewrite Hold in Hrep2, Hlog2.
  rewrite decide_True in Hrep2 by done. rewrite decide_True in Hlog2 by done.
  exists changes1, q1, now, changes2, q2.
  split; [done|]. split.
  { intros c. rewrite Hrep1. apply list_elem_of_singleton. }
  split; [apply slice_to_8_hexdigest|]. split; [done|]. split.
  - intros c Hc Hname. by apply (elem_of_nil c), Hrep2.
  - apply Hlog2. by left.
Qed.

Lemma initial_exactly_once_witness :
  ∃ changes1 q1 now changes2 q2,
    check_for_changes (world (served 200 "OK" site_a "hello")) two_sites
      (boot None) = (Returned changes1, q1)
    ∧ (∀ c, c ∈ changes1 ∧ change_name c = "A"
         ↔ c = {| change_name := "A"; change_url := site_a;
                  change_timestamp := now;
                  change_status := "Initial Check (No history recorded)";
                  change_hash_change :=
                    "Initial Hash: "
                    +:+ slice_to 8 (MD5.hexdigest (list_byte_of_string "hello"))
                    +:+ "..." |})
    ∧ String.length
        (slice_to 8 (MD5.hexdigest (list_byte_of_string "hello"))) = 8
    ∧ check_for_changes (world (served 200 "OK" site_a "hello")) two_sites
        (boot (Some (Decodable {[ "A" := digest_hello; "B" := digest_hello ]})))
      = (Returned changes2, q2)
    ∧ (∀ c, c ∈ changes2 → change_name c ≠ "A")
    ∧ "✅ No change for: " +:+ "A" ∈ stdout q2.
Proof.
  apply (initial_exactly_once
           (world (served 200 "OK" site_a "hello"))
           (world (served 200 "OK" site_a "hello")) two_sites
           (boot None)
           (boot (Some (Decodable {[ "A" := digest_hello; "B" := digest_hello ]})))
           0 "A" site_a (list_byte_of_string "hello")).
  - apply (bool_decide_unpack _). vm_compute. reflexivity.
  - reflexivity.
  - reflexivity.
  - vm_compute. reflexivity.
  - vm_compute. reflexivity.
  - vm_compute. reflexivity.
Defined.

(** The [try] block raises exactly when the request fails: [requests.get]
    raises, or the status is one that [raise_for_status] rejects. *)
Lemma attempt_raises env k url e :
  attempt env k url = Raised e ↔ request_fails (network env k url 15) e.
Proof.
  unfold attempt, request_fails.
  destruct (network env k url 15) as [response|e'].
  2: { split; [intros [= ->]; by left|].
       intros [[= ->]|(r & H & _)]; [done | discriminate]. }
  split.
  - intros Hraised. right. exists response. split; [done|].
    destruct (raise_for_status response) as [[]|e''] eqn:Hstatus; [done|].
    split; [|congruence]. clear Hraised. unfold raise_for_status in Hstatus.
    destruct (400 <=? status_code response) eqn:H400;
      destruct (status_code response <? 500) eqn:H500;
      destruct (500 <=? status_code response) eqn:H500';
      destruct (status_code response <? 600) eqn:H600;
      simpl in Hstatus; try discriminate;
      repeat match goal with
        | H : (_ <=? _) = true |- _ => apply Nat.leb_le in H
        | H : (_ <=? _) = false |- _ => apply Nat.leb_gt in H
        | H : (_ <? _) = true |- _ => apply Nat.ltb_lt in H
        | H : (_ <? _) = false |- _ => apply Nat.ltb_ge in H
        end; lia.
  - intros [Hraised|(response' & Hreturned & _ & Hstatus)]; [done|].
    injection Hreturned as <-. by rewrite Hstatus.
Qed.

(** C6, as worded, fails: a response with status 304 is outside 200-299,
    [raise_for_status] lets it through, and the target is hashed and
    reported as an initial check, not as an Error. *)
Lemma not_modified_is_hashed :
  ¬ every_failure_is_an_error (world (served 304 "Not Modified" site_a ""))
      two_sites (boot None).
Proof.
  intros Hclaim.
  destruct (Hclaim 0 "A" site_a) as (changes & c & Hrun & Hc & Hname & Hstatus).
  - reflexivity.
  - simpl. lia.
  - vm_compute in Hrun. injection Hrun as <-.
    apply elem_of_cons in Hc as [->|Hc].
    + destruct Hstatus as [rest Hrest]. simpl in Hrest. discriminate.
    + apply list_elem_of_singleton in Hc as ->. simpl in Hname. discriminate.
Qed.

(** A second run whose successful fetches were already successful, with
    the same bodies, in the run that wrote its hash store returns Error
    entries only. *)
Lemma rerun_same_bodies env1 env2 cfg p1 p2 :
  NoDup cfg.*1 →
  hash_storage p2 = hash_storage (check_for_changes env1 cfg p1).2 →
  (∀ i name url body,
     cfg !! i = Some (name, url) →
     attempt env2 (requests_sent p2 + i) url = Returned body →
     attempt env1 (requests_sent p1 + i) url = Returned body) →
  ∀ c, c ∈ reports env2 (persisted (hash_storage p2)) cfg
             (requests_sent p2) (clock_reads p2) →
       ∃ msg, change_status c = "Error: " +:+ msg.
Proof.
  intros Hnd Hp2 Hsame c Hc.
  apply reports_inv in Hc as (i & name & url & t' & Hi & Hc).
  destruct (attempt env2 (requests_sent p2 + i) url) as [body|e] eqn:Hok2.
  - pose proof (saved_digest_is_loaded env1 cfg p1 p2 i name url body
                  Hnd Hi Hp2 (Hsame i name url body Hi Hok2)) as Hold.
    simpl in Hc. rewrite Hold, decide_True in Hc by done. by inversion Hc.
  - apply list_elem_of_singleton in Hc as ->. by eexists.
Qed.

(** C7, as worded, fails.  The store holds the digests of both bodies and
    no body changes; the fetch of A times out in the first run and
    succeeds in the second.  The first run saves a store without A, and
    the second run reports A as an initial check. *)
Lemma rerun_after_failure_reports_initial :
  ¬ rerun_reports_nothing_new
      (world (Raised read_timeout)) (world (served 200 "OK" site_a "world"))
      two_sites
      (boot (Some (Decodable {[ "A" := digest_world; "B" := digest_hello ]})))
      (boot (store "B" digest_hello)).
Proof.
  intros Hclaim. destruct Hclaim as (changes2 & Hrun & Hnone).
  - vm_compute. reflexivity.
  - intros i name url body1 body2 Hi Hok1 Hok2.
    destruct i as [|[|i]]; [| |discriminate Hi].
    + injection Hi as <- <-. vm_compute in Hok1. discriminate.
    + injection Hi as <- <-. vm_compute in Hok1, Hok2. congruence.
  - vm_compute in Hrun. injection Hrun as <-.
    destruct (Hnone _ (list_elem_of_here _ _)) as [_ Hinitial].
    by apply Hinitial.
Qed.

(** C7, amended: when a run is followed by a second run in which every
    target fetched successfully was already fetched successfully, with the
    same body, in the first, the second run returns no [Content Changed]
    and no [Initial Check] entry, and every target it fetches successfully
    gets no entry, only the console line of an unchanged target.  This
    holds whatever the hash store held before the first run. *)
Theorem second_run_reports_nothing_new env1 env2 cfg p1 p2 :
  NoDup cfg.*1 →
  hash_storage p2 = hash_storage (check_for_changes env1 cfg p1).2 →
  (∀ i name url body,
     cfg !! i = Some (name, url) →
     attempt env2 (requests_sent p2 + i) url = Returned body →
     attempt env1 (requests_sent p1 + i) url = Returned body) →
  ∃ changes2 q2,
    check_for_changes env2 cfg p2 = (Returned changes2, q2)
    ∧ (∀ c, c ∈ changes2 →
         change_status c ≠ "Content Changed"
         ∧ change_status c ≠ "Initial Check (No history recorded)")
    ∧ (∀ i name url body,
         cfg !! i = Some (name, url) →
         attempt env2 (requests_sent p2 + i) url = Returned body →
         (∀ c, c ∈ changes2 → change_name c ≠ name)
         ∧ "✅ No change for: " +:+ name ∈ stdout q2).
Proof.
  intros Hnd Hp2 Hsame.
  eexists _, _. split; [apply check_for_changes_eq|]. split.
  - intros c Hc.
    destruct (rerun_same_bodies env1 env2 cfg p1 p2 Hnd Hp2 Hsame c Hc)
      as [msg Hmsg].
    rewrite Hmsg. split;
      [apply error_status_not_changed | apply error_status_not_initial].
  - intros i name url body Hi Hok2.
    pose proof (saved_digest_is_loaded env1 cfg p1 p2 i name url body
                  Hnd Hi Hp2 (Hsame i name url body Hi Hok2)) as Hold.
    destruct (check_for_changes_target env2 cfg p2 i name url Hnd Hi)
      as (changes & q & now & Hrun & _ & Hrep & Hlog & _).
    rewrite check_for_changes_eq in Hrun. injection Hrun as <- <-.
    rewrite Hok2 in Hrep, Hlog. simpl in Hrep, Hlog.
    rewrite Hold in Hrep, Hlog.
    rewrite decide_True in Hrep by done. rewrite decide_True in Hlog by done.
    split.
    + intros c Hc Hname. by apply (elem_of_nil c), Hrep.
    + apply Hlog. by left.
Qed.

Lemma second_run_reports_nothing_new_witness :
  ∃ changes2 q2,
    check_for_changes (world (Raised read_timeout)) two_sites
      (boot (Some (Decodable {[ "A" := digest_world;
                                    "B" := digest_hello ]}))) = (Returned changes2, q2)
    ∧ (∀ c, c ∈ changes2 →
         change_status c ≠ "Content Changed"
         ∧ change_status c ≠ "Initial Check (No history recorded)")
    ∧ (∀ i name url body,
         two_sites !! i = Some (name, url) →
         attempt (world (Raised read_timeout))
           (requests_sent (boot (Some (Decodable {[ "A" := digest_world;
                                    "B" := digest_hello ]}))) + i) url
         = Returned body →
         (∀ c, c ∈ changes2 → change_name c ≠ name)
         ∧ "✅ No change for: " +:+ name ∈ stdout q2).
Proof.
  apply (second_run_reports_nothing_new
           (world (served 200 "OK" site_a "world"))
           (world (Raised read_timeout)) two_sites
           (boot (Some Undecodable)) (boot (Some (Decodable {[ "A" := digest_world;
                                    "B" := digest_hello ]})))).
  - apply (bool_decide_unpack _). vm_compute. reflexivity.
  - vm_compute. reflexivity.
  - intros i name url body Hi Hok.
    destruct i as [|[|i]]; [| |discriminate Hi].
    + injection Hi as <- <-. vm_compute in Hok. discriminate.
    + injection Hi as <- <-. vm_compute in Hok. injection Hok as <-.
      vm_compute. reflexivity.
Defined.

(** C9: the report written by a run.  Its root holds a [Status] element
    whose text gives the number of entries, or says that no changes were
    detected when there is none, then a [TimestampGenerated] element, then
    one [ChangeItem] per entry with the sub-elements [Name], [URL],
    [Timestamp], [Status] and [HashDetails] in that order.  The entries are
    those [check_for_changes] returned: the targets in the order of the
    configuration, without the unchanged ones. *)
Theorem report_structure env cfg p :
  ∃ changes generated q,
    main env cfg p = (Returned tt, q)
    ∧ (check_for_changes env cfg p).1 = Returned changes
    ∧ xml_output q
      = Some (El "MonitoringReport" None
          (El "Status"
             (Some match changes with
                   | [] => "No changes detected since the last run."
                   | _ :: _ =>
                       str_of_nat (length changes)
                       +:+ " Change(s) or Initial Check(s) Detected."
                   end) []
           :: El "TimestampGenerated" (Some generated) []
           :: ((λ c, El "ChangeItem" None
                       [El "Name" (Some (change_name c)) [];
                        El "URL" (Some (change_url c)) [];
                        El "Timestamp" (Some (change_timestamp c)) [];
                        El "Status" (Some (change_status c)) [];
                        El "HashDetails" (Some (change_hash_change c)) []])
               <$> changes)))
    ∧ target_of <$> changes
      = (filter
           (λ it, unchanged (persisted (hash_storage p)) it.2.1
                    (attempt env it.1 it.2.2) = false)
           (zip (seq (requests_sent p) (length cfg)) cfg)).*2.
Proof.
  exists (reports env (persisted (hash_storage p)) cfg (requests_sent p)
            (clock_reads p)),
    (clock env (clock_reads p
                + length (reports env (persisted (hash_storage p)) cfg
                            (requests_sent p) (clock_reads p)))).
  eexists. split; [|split; [|split]].
  - unfold main. unfold mbind at 1, M_bind at 1, print at 1.
    unfold mbind at 1, M_bind at 1. rewrite check_for_changes_eq.
    cbn [hash_storage requests_sent clock_reads xml_output stdout slept].
    unfold generate_xml_report, mbind, M_bind, datetime_now_isoformat,
      tree_write, print.
    cbn [hash_storage requests_sent clock_reads xml_output stdout slept].
    reflexivity.
  - by rewrite check_for_changes_eq.
  - cbn [xml_output]. unfold ChangeItem.
    by destruct (reports env (persisted (hash_storage p)) cfg
                   (requests_sent p) (clock_reads p)).
  - apply reports_order.
Qed.

(** C10: the entry appended for a target whose fetch fails has the status
    [Error: ] followed by the message of the exception and the hash
    details [N/A]; and every entry whose status begins with [Error: ] has
    the hash details [N/A]. *)
Theorem error_event_fields env cfg p i name url e :
  cfg !! i = Some (name, url) →
  attempt env (requests_sent p + i) url = Raised e →
  ∃ changes q now,
    check_for_changes env cfg p = (Returned changes, q)
    ∧ {| change_name := name; change_url := url; change_timestamp := now;
         change_status := "Error: " +:+ str_exception e;
         change_hash_change := "N/A" |} ∈ changes
    ∧ (∀ c, c ∈ changes → starts_with "Error: " (change_status c) →
            change_hash_change c = "N/A").
Proof.
  intros Hi Hfail.
  destruct (reports_split env (persisted (hash_storage p)) cfg
              (requests_sent p) (clock_reads p) i name url Hi)
    as (before & after & t' & Heq & _).
  eexists _, _, (clock env t'). split; [apply check_for_changes_eq|]. split.
  - rewrite Heq, Hfail, !elem_of_app. right; left. by left.
  - intros c Hc [rest Hstatus].
    apply reports_inv in Hc as (j & n & u & t & _ & Hc).
    destruct (attempt env (requests_sent p + j) u) as [body|e']; simpl in Hc.
    + destruct (persisted (hash_storage p) !! n) as [old|].
      * destruct (decide (old = MD5.hexdigest body)); [by inversion Hc|].
        apply list_elem_of_singleton in Hc as ->. discriminate.
      * apply list_elem_of_singleton in Hc as ->. discriminate.
    + by apply list_elem_of_singleton in Hc as ->.
Qed.

Lemma error_event_fields_witness :
  ∃ changes q now,
    check_for_changes (world server_error) two_sites
      (boot (store "A" digest_world)) = (Returned changes, q)
    ∧ {| change_name := "A"; change_url := site_a; change_timestamp := now;
         change_status := "Error: " +:+ server_error_message;
         change_hash_change := "N/A" |} ∈ changes
    ∧ (∀ c, c ∈ changes → starts_with "Error: " (change_status c) →
            change_hash_change c = "N/A").
Proof.
  apply (error_event_fields (world server_error) two_sites
           (boot (store "A" digest_world)) 0 "A" site_a
           (HTTPError server_error_message)).
  - reflexivity.
  - vm_compute. reflexivity.
Defined.

(** ** Further properties of a run *)

Section Stamps.
Context (env : Env).
Implicit Types (last_hashes : gmap string string).
Implicit Types (items : list (string * string)).

Lemma reported_stamp last_hashes name url o t0 :
  change_timestamp <$> reported last_hashes name url o (clock env t0)
  = clock env
    <$> seq t0 (length (reported last_hashes name url o (clock env t0))).
Proof.
  destruct o as [body|e]; simpl; [|done].
  destruct (last_hashes !! name) as [old|]; [|done].
  by destruct (decide (old = MD5.hexdigest body)).
Qed.

Lemma reported_length last_hashes name url o now :
  length (reported last_hashes name url o now) ≤ 1.
Proof.
  destruct o as [body|e]; simpl; [|done].
  destruct (last_hashes !! name) as [old|]; [|done].
  destruct (decide (old = MD5.hexdigest body)); simpl; lia.
Qed.

(** The entries carry consecutive clock readings. *)
Lemma reports_stamps last_hashes items : ∀ k t0,
  change_timestamp <$> reports env last_hashes items k t0
  = clock env <$> seq t0 (length (reports env last_hashes items k t0)).
Proof.
  induction items as [|[n u] rest IH]; intros k t0; [done|].
  cbn [reports]. rewrite fmap_app, length_app, seq_app, fmap_app.
  by rewrite IH, reported_stamp.
Qed.

Lemma reports_length last_hashes items : ∀ k t0,
  length (reports env last_hashes items k t0) ≤ length items.
Proof.
  induction items as [|[n u] rest IH]; intros k t0; [done|].
  cbn [reports]. rewrite length_app. simpl.
  pose proof (reported_length last_hashes n u (attempt env k u) (clock env t0)).
  pose proof (IH (S k)
    (t0 + length (reported last_hashes n u (attempt env k u) (clock env t0)))).
  lia.
Qed.

Lemma reports_names_NoDup last_hashes items : ∀ k t0,
  NoDup items.*1 → NoDup (change_name <$> reports env last_hashes items k t0).
Proof.
  induction items as [|[n u] rest IH]; intros k t0 Hnd; [constructor|].
  rewrite fmap_cons in Hnd. apply NoDup_cons in Hnd as [Hhead Hnd].
  cbn [reports]. rewrite fmap_app. apply NoDup_app. split; [|split].
  - pose proof (reported_length last_hashes n u (attempt env k u) (clock env t0)).
    destruct (reported last_hashes n u (attempt env k u) (clock env t0))
      as [|c [|c' l]]; simpl in *; [constructor| |lia].
    apply NoDup_singleton.
  - intros name Hin Hin'.
    apply list_elem_of_fmap in Hin as (c & -> & Hc).
    apply list_elem_of_fmap in Hin' as (c' & Hname & Hc').
    apply reported_target in Hc. apply reports_targets in Hc'.
    apply Hhead. simpl. injection Hc as <- _. rewrite Hname.
    by apply (list_elem_of_fmap_2 fst _ (target_of c')).
  - by apply IH.
Qed.

(** A digest in the records of the loop was there before the loop or is
    the MD5 digest of a body. *)
Lemma records_values items : ∀ k cur name digest,
  records env items k cur !! name = Some digest →
  cur !! name = Some digest ∨ ∃ body, digest = MD5.hexdigest body.
Proof.
  induction items as [|[n u] rest IH]; intros k cur name digest Hd; [by left|].
  cbn [records] in Hd. apply IH in Hd as [Hd|Hd]; [|by right].
  destruct (attempt env k u) as [body|e]; simpl in Hd; [|by left].
  destruct (decide (n = name)) as [->|Hne].
  - rewrite lookup_insert_eq in Hd. right. exists body. by inversion Hd.
  - rewrite lookup_insert_ne in Hd by done. by left.
Qed.

End Stamps.

(** What [main] returns and the process it leaves. *)
Lemma main_eq env cfg p :
  let last_hashes := persisted (hash_storage p) in
  let changes :=
    reports env last_hashes cfg (requests_sent p) (clock_reads p) in
  main env cfg p
  = (Returned tt,
     {| hash_storage := Some (Decodable (records env cfg (requests_sent p) ∅));
        xml_output :=
          Some (El "MonitoringReport" None
                  ([El "Status"
                      (Some (if bool_decide (changes ≠ [])
                             then str_of_nat (length changes)
                                  +:+ " Change(s) or Initial Check(s) Detected."
                             else "No changes detected since the last run."))
                      [];
                    El "TimestampGenerated"
                      (Some (clock env (clock_reads p + length changes))) []]
                   ++ (ChangeItem <$> changes)));
        stdout :=
          stdout p
          ++ ["--- Web Monitoring Buoy Started ---"]
          ++ load_warning (hash_storage p)
          ++ logs env last_hashes cfg (requests_sent p)
          ++ [newline +:+ "Report written to " +:+ XML_OUTPUT_FILE;
              "--- Monitoring Run Complete ---"];
        requests_sent := requests_sent p + length cfg;
        clock_reads := S (clock_reads p + length changes);
        slept := slept p + length cfg |}).
Proof.
  intros last_hashes changes. subst last_hashes changes.
  unfold main. unfold mbind at 1, M_bind at 1, print at 1.
  unfold mbind at 1, M_bind at 1. rewrite check_for_changes_eq.
  cbn [hash_storage requests_sent clock_reads xml_output stdout slept].
  unfold generate_xml_report, mbind, M_bind, datetime_now_isoformat,
    tree_write, print.
  cbn [hash_storage requests_sent clock_reads xml_output stdout slept].
  rewrite <- !app_assoc. reflexivity.
Qed.

(** X1: a run sends one request and sleeps one second for each target of
    the configuration, whatever the outcomes, reads the clock once for each
    entry it returns, and leaves the report file as it was. *)
Theorem one_request_and_one_second_per_target env cfg p :
  ∃ changes q,
    check_for_changes env cfg p = (Returned changes, q)
    ∧ requests_sent q = requests_sent p + length cfg
    ∧ slept q = slept p + length cfg
    ∧ clock_reads q = clock_reads p + length changes
    ∧ xml_output q = xml_output p.
Proof. eexists _, _. split; [apply check_for_changes_eq|]. done. Qed.

(** X2: the entries of the report carry consecutive clock readings in the
    order they are listed, and [TimestampGenerated] is the reading that
    follows the last of them. *)
Theorem report_timestamps_in_order env cfg p :
  ∃ changes status q,
    main env cfg p = (Returned tt, q)
    ∧ xml_output q
      = Some (El "MonitoringReport" None
                (El "Status" (Some status) []
                 :: El "TimestampGenerated"
                      (Some (clock env (clock_reads p + length changes))) []
                 :: (ChangeItem <$> changes)))
    ∧ change_timestamp <$> changes
      = clock env <$> seq (clock_reads p) (length changes)
    ∧ clock_reads q = clock_reads p + length changes + 1.
Proof.
  eexists _, _, _. split; [apply main_eq|].
  cbn [xml_output clock_reads]. split; [reflexivity|]. split.
  - apply reports_stamps.
  - lia.
Qed.

(** X3: the mapping a run saves does not depend on the hash store it
    started with: two runs in the same world over the same configuration
    save the same file, whatever each found in the store. *)
Theorem saved_store_ignores_prior_store env cfg p p' :
  requests_sent p = requests_sent p' →
  hash_storage (check_for_changes env cfg p).2
  = hash_storage (check_for_changes env cfg p').2.
Proof. intros Hsent. by rewrite !check_for_changes_eq, Hsent. Qed.

Lemma saved_store_ignores_prior_store_witness :
  hash_storage (check_for_changes (world server_error) two_sites
                  (boot None)).2
  = hash_storage (check_for_changes (world server_error) two_sites
                    (boot (store "A" digest_world))).2.
Proof.
  apply (saved_store_ignores_prior_store (world server_error) two_sites
           (boot None) (boot (store "A" digest_world))).
  reflexivity.
Defined.

(** X4: a name that is not in the configuration has no entry in the store
    after a run, even when the store held a digest for it before. *)
Theorem unconfigured_name_is_purged env cfg p name :
  name ∉ cfg.*1 →
  ∃ changes q,
    check_for_changes env cfg p = (Returned changes, q)
    ∧ persisted (hash_storage q) !! name = None
    ∧ ∀ c, c ∈ changes → change_name c ≠ name.
Proof.
  intros Hnotin. eexists _, _. split; [apply check_for_changes_eq|].
  cbn [hash_storage persisted]. split.
  - by rewrite records_notin, lookup_empty.
  - intros c Hc Hname. apply Hnotin. apply reports_targets in Hc.
    rewrite <- Hname. by apply (list_elem_of_fmap_2 fst _ (target_of c)).
Qed.

Lemma unconfigured_name_is_purged_witness :
  ∃ changes q,
    check_for_changes (world server_error) two_sites
      (boot (store "C" digest_world)) = (Returned changes, q)
    ∧ persisted (hash_storage q) !! "C" = None
    ∧ ∀ c, c ∈ changes → change_name c ≠ "C".
Proof.
  apply (unconfigured_name_is_purged (world server_error) two_sites
           (boot (store "C" digest_world)) "C").
  apply (bool_decide_unpack _). vm_compute. reflexivity.
Defined.

(** X5: after a run in which a target's fetch failed, the next run that
    fetches the target successfully reports it as an initial check,
    whatever digest the store held for it before the failure. *)
Theorem success_after_failure_is_initial env1 env2 cfg p1 p2 i name url e body :
  NoDup cfg.*1 → cfg !! i = Some (name, url) →
  attempt env1 (requests_sent p1 + i) url = Raised e →
  hash_storage p2 = hash_storage (check_for_changes env1 cfg p1).2 →
  attempt env2 (requests_sent p2 + i) url = Returned body →
  ∃ changes2 q2 now,
    check_for_changes env2 cfg p2 = (Returned changes2, q2)
    ∧ ∀ c, c ∈ changes2 ∧ change_name c = name
         ↔ c = {| change_name := name; change_url := url;
                  change_timestamp := now;
                  change_status := "Initial Check (No history recorded)";
                  change_hash_change :=
                    "Initial Hash: " +:+ slice_to 8 (MD5.hexdigest body)
                    +:+ "..." |}.
Proof.
  intros Hnd Hi Hfail Hp2 Hok.
  assert (persisted (hash_storage p2) !! name = None) as Hnone.
  { rewrite Hp2, check_for_changes_eq. simpl.
    by rewrite (records_lookup env1 cfg _ _ i name url Hnd Hi),
      recorded_lookup_eq, Hfail. }
  destruct (check_for_changes_target env2 cfg p2 i name url Hnd Hi)
    as (changes2 & q2 & now & Hrun & _ & Hrep & _).
  rewrite Hok in Hrep. simpl in Hrep. rewrite Hnone in Hrep.
  exists changes2, q2, now. split; [done|].
  intros c. rewrite Hrep. apply list_elem_of_singleton.
Qed.

Lemma success_after_failure_is_initial_witness :
  ∃ changes2 q2 now,
    check_for_changes (world (served 200 "OK" site_a "world")) two_sites
      (boot (store "B" digest_hello)) = (Returned changes2, q2)
    ∧ ∀ c, c ∈ changes2 ∧ change_name c = "A"
         ↔ c = {| change_name := "A"; change_url := site_a;
                  change_timestamp := now;
                  change_status := "Initial Check (No history recorded)";
                  change_hash_change :=
                    "Initial Hash: "
                    +:+ slice_to 8 (MD5.hexdigest (list_byte_of_string "world"))
                    +:+ "..." |}.
Proof.
  apply (success_after_failure_is_initial
           (world server_error) (world (served 200 "OK" site_a "world"))
           two_sites (boot (store "A" digest_world))
           (boot (store "B" digest_hello)) 0 "A" site_a
           (HTTPError server_error_message) (list_byte_of_string "world")).
  - apply (bool_decide_unpack _). vm_compute. reflexivity.
  - reflexivity.
  - vm_compute. reflexivity.
  - vm_compute. reflexivity.
  - vm_compute. reflexivity.
Defined.

(** X6: with an empty configuration a run sends no request and does not
    sleep, returns no entry, overwrites the hash store with the empty
    mapping, and the report holds the no-changes status and the timestamp
    only. *)
Theorem empty_configuration env p :
  ∃ generated q,
    main env [] p = (Returned tt, q)
    ∧ (check_for_changes env [] p).1 = Returned []
    ∧ hash_storage q = Some (Decodable ∅)
    ∧ xml_output q
      = Some (El "MonitoringReport" None
                [El "Status" (Some "No changes detected since the last run.") [];
                 El "TimestampGenerated" (Some generated) []])
    ∧ requests_sent q = requests_sent p
    ∧ slept q = slept p.
Proof.
  eexists _, _. split; [apply main_eq|]. rewrite check_for_changes_eq.
  cbn [hash_storage xml_output requests_sent slept fst reports records length].
  repeat split; lia.
Qed.

(** X7: every entry a run returns is for a target of the configuration and
    is justified by that target's fetch: an Error entry by the exception
    raised, an initial check by a successful fetch with no digest stored
    for the name, a [Content Changed] entry by a successful fetch whose
    digest differs from the stored one. *)
Theorem every_entry_is_justified env cfg p :
  ∃ changes q,
    check_for_changes env cfg p = (Returned changes, q)
    ∧ ∀ c, c ∈ changes →
        ∃ i, cfg !! i = Some (change_name c, change_url c)
          ∧ match attempt env (requests_sent p + i) (change_url c) with
            | Raised e =>
                change_status c = "Error: " +:+ str_exception e
                ∧ change_hash_change c = "N/A"
            | Returned body =>
                match persisted (hash_storage p) !! change_name c with
                | None =>
                    change_status c = "Initial Check (No history recorded)"
                    ∧ change_hash_change c
                      = "Initial Hash: " +:+ slice_to 8 (MD5.hexdigest body)
                        +:+ "..."
                | Some old =>
                    old ≠ MD5.hexdigest body
                    ∧ change_status c = "Content Changed"
                    ∧ change_hash_change c
                      = "Old: " +:+ slice_to 8 old +:+ "... -> New: " +:+
                        slice_to 8 (MD5.hexdigest body) +:+ "..."
                end
            end.
Proof.
  eexists _, _. split; [apply check_for_changes_eq|].
  intros c Hc. apply reports_inv in Hc as (i & name & url & t & Hi & Hc).
  pose proof (reported_target _ _ _ _ _ _ Hc) as [= Hname Hurl].
  exists i. rewrite Hname, Hurl. split; [done|].
  destruct (attempt env (requests_sent p + i) url) as [body|e]; simpl in Hc.
  - destruct (persisted (hash_storage p) !! name) as [old|].
    + destruct (decide (old = MD5.hexdigest body)); [by inversion Hc|].
      by apply list_elem_of_singleton in Hc as ->.
    + by apply list_elem_of_singleton in Hc as ->.
  - by apply list_elem_of_singleton in Hc as ->.
Qed.

(** X8: a run returns at most one entry for each target: no more entries
    than targets, and no name twice. *)
Theorem at_most_one_entry_per_target env cfg p :
  NoDup cfg.*1 →
  ∃ changes q,
    check_for_changes env cfg p = (Returned changes, q)
    ∧ NoDup (change_name <$> changes)
    ∧ length changes ≤ length cfg.
Proof.
  intros Hnd. eexists _, _. split; [apply check_for_changes_eq|]. split.
  - by apply reports_names_NoDup.
  - apply reports_length.
Qed.

Lemma at_most_one_entry_per_target_witness :
  ∃ changes q,
    check_for_changes (world server_error) two_sites
      (boot (store "A" digest_world)) = (Returned changes, q)
    ∧ NoDup (change_name <$> changes)
    ∧ length changes ≤ length two_sites.
Proof.
  apply (at_most_one_entry_per_target (world server_error) two_sites
           (boot (store "A" digest_world))).
  apply (bool_decide_unpack _). vm_compute. reflexivity.
Defined.

(** X9: a failed fetch is printed on the console with the name, the url
    and the message of the exception, the message the entry's status
    carries. *)
Theorem failure_is_printed env cfg p i name url e :
  cfg !! i = Some (name, url) →
  attempt env (requests_sent p + i) url = Raised e →
  ∃ changes q,
    check_for_changes env cfg p = (Returned changes, q)
    ∧ "❌ Error checking " +:+ name +:+ " (" +:+ url +:+ "): "
      +:+ str_exception e ∈ stdout q.
Proof.
  intros Hi Hfail. eexists _, _. split; [apply check_for_changes_eq|].
  cbn [stdout]. rewrite !elem_of_app. right; right.
  apply (logs_elem env _ cfg _ i name url); [done|].
  rewrite Hfail. by left.
Qed.

Lemma failure_is_printed_witness :
  ∃ changes q,
    check_for_changes (world server_error) two_sites
      (boot (store "A" digest_world)) = (Returned changes, q)
    ∧ "❌ Error checking " +:+ "A" +:+ " (" +:+ site_a +:+ "): "
      +:+ str_exception (HTTPError server_error_message) ∈ stdout q.
Proof.
  apply (failure_is_printed (world server_error) two_sites
           (boot (store "A" digest_world)) 0 "A" site_a
           (HTTPError server_error_message)).
  - reflexivity.
  - vm_compute. reflexivity.
Defined.

(** X10: a changed target is announced on the console by name. *)
Theorem change_is_printed env cfg p i name url body old :
  cfg !! i = Some (name, url) →
  attempt env (requests_sent p + i) url = Returned body →
  persisted (hash_storage p) !! name = Some old →
  old ≠ MD5.hexdigest body →
  ∃ changes q,
    check_for_changes env cfg p = (Returned changes, q)
    ∧ "🚨 Change detected on: " +:+ name ∈ stdout q.
Proof.
  intros Hi Hok Hold Hne. eexists _, _. split; [apply check_for_changes_eq|].
  cbn [stdout]. rewrite !elem_of_app. right; right.
  apply (logs_elem env _ cfg _ i name url); [done|].
  rewrite Hok. simpl. rewrite Hold, decide_False by done. by left.
Qed.

Lemma change_is_printed_witness :
  ∃ changes q,
    check_for_changes (world (served 200 "OK" site_a "world")) two_sites
      (boot (store "A" digest_hello)) = (Returned changes, q)
    ∧ "🚨 Change detected on: " +:+ "A" ∈ stdout q.
Proof.
  apply (change_is_printed (world (served 200 "OK" site_a "world")) two_sites
           (boot (store "A" digest_hello)) 0 "A" site_a
           (list_byte_of_string "world") digest_hello).
  - reflexivity.
  - vm_compute. reflexivity.
  - vm_compute. reflexivity.
  - vm_compute. discriminate.
Defined.

Lemma reports_no_history env last_hashes items : ∀ k t0,
  (∀ name, name ∈ items.*1 → last_hashes !! name = None) →
  (∀ i name url, items !! i = Some (name, url) →
                 ∃ body, attempt env (k + i) url = Returned body) →
  target_of <$> reports env last_hashes items k t0 = items
  ∧ logs env last_hashes items k = [].
Proof.
  induction items as [|[n u] rest IH]; intros k t0 Hnone Hok; [done|].
  destruct (Hok 0 n u eq_refl) as [body Hbody]. rewrite Nat.add_0_r in Hbody.
  destruct (IH (S k)
              (t0 + length (reported last_hashes n u (attempt env k u)
                              (clock env t0)))) as [Htargets Hlogs].
  { intros name Hin. apply Hnone. rewrite fmap_cons. by right. }
  { intros i name url Hi. replace (S k + i) with (k + S i) by lia.
    by apply (Hok (S i) name url). }
  cbn [reports logs]. rewrite fmap_app, Htargets, Hlogs, Hbody. simpl.
  rewrite (Hnone n) by (rewrite fmap_cons; by left). done.
Qed.

(** X11: when the store holds no digest for any target of the
    configuration (a first run, or a store that did not decode) and every
    fetch succeeds, the run returns one initial-check entry for each
    target, in the order of the configuration, and prints nothing about
    the targets. *)
Theorem first_run_reports_every_target env cfg p :
  (∀ name, name ∈ cfg.*1 → persisted (hash_storage p) !! name = None) →
  (∀ i name url, cfg !! i = Some (name, url) →
     ∃ body, attempt env (requests_sent p + i) url = Returned body) →
  ∃ changes q,
    check_for_changes env cfg p = (Returned changes, q)
    ∧ target_of <$> changes = cfg
    ∧ (∀ c, c ∈ changes →
            change_status c = "Initial Check (No history recorded)")
    ∧ stdout q = stdout p ++ load_warning (hash_storage p).
Proof.
  intros Hnone Hok.
  destruct (reports_no_history env (persisted (hash_storage p)) cfg
              (requests_sent p) (clock_reads p) Hnone Hok) as [Htargets Hlogs].
  eexists _, _. split; [apply check_for_changes_eq|].
  cbn [stdout]. split; [done|]. split.
  - intros c Hc. apply reports_inv in Hc as (i & name & url & t & Hi & Hc).
    destruct (Hok i name url Hi) as [body Hbody]. rewrite Hbody in Hc.
    simpl in Hc. rewrite (Hnone name) in Hc.
    + by apply list_elem_of_singleton in Hc as ->.
    + apply (list_elem_of_fmap_2 fst _ (name, url)).
      by eapply list_elem_of_lookup_2.
  - by rewrite Hlogs, app_nil_r.
Qed.

Lemma first_run_reports_every_target_witness :
  ∃ changes q,
    check_for_changes (world (served 200 "OK" site_a "world")) two_sites
      (boot (Some Undecodable)) = (Returned changes, q)
    ∧ target_of <$> changes = two_sites
    ∧ (∀ c, c ∈ changes →
            change_status c = "Initial Check (No history recorded)")
    ∧ stdout q
      = stdout (boot (Some Undecodable))
        ++ load_warning (hash_storage (boot (Some Undecodable))).
Proof.
  apply (first_run_reports_every_target
           (world (served 200 "OK" site_a "world")) two_sites
           (boot (Some Undecodable))).
  - intros name _. reflexivity.
  - intros [|[|i]] name url Hi; [| |discriminate Hi].
    + injection Hi as <- <-. by eexists.
    + injection Hi as <- <-. by eexists.
Defined.

Lemma logs_length env last_hashes items : ∀ k,
  length (logs env last_hashes items k) ≤ length items.
Proof.
  induction items as [|[n u] rest IH]; intros k; [done|].
  cbn [logs]. rewrite length_app. simpl. pose proof (IH (S k)).
  assert (length (logged last_hashes n u (attempt env k u)) ≤ 1); [|lia].
  destruct (attempt env k u) as [body|e]; simpl; [|done].
  destruct (last_hashes !! n) as [old|]; simpl; [|lia].
  by destruct (decide (old = MD5.hexdigest body)).
Qed.

(** X13: the report determines the list it was generated from: two calls
    of [generate_xml_report] that write the same document were given the
    same list of entries. *)
Theorem report_determines_changes env1 env2 changes1 changes2 p1 p2 :
  xml_output (generate_xml_report env1 changes1 p1).2
  = xml_output (generate_xml_report env2 changes2 p2).2 →
  changes1 = changes2.
Proof.
  unfold generate_xml_report, mbind, M_bind, datetime_now_isoformat,
    tree_write, print.
  cbn [xml_output snd]. intros [= _ _ Hitems].
  revert changes2 Hitems.
  induction changes1 as [|[n u t s h] rest IH]; intros [|[n' u' t' s' h'] rest'];
    simpl; intros Hitems; try done.
  injection Hitems as -> -> -> -> -> Hrest. f_equal. by apply IH.
Qed.

Lemma report_determines_changes_witness :
  [{| change_name := "A"; change_url := site_a; change_timestamp := "t";
      change_status := "Content Changed"; change_hash_change := "N/A" |}]
  = [{| change_name := "A"; change_url := site_a; change_timestamp := "t";
        change_status := "Content Changed"; change_hash_change := "N/A" |}].
Proof.
  apply (report_determines_changes (world server_error) (world server_error)
           _ _ (boot None) (boot (store "A" digest_world))).
  reflexivity.
Defined.

(** The two characters printed for a byte are lower-case hexadecimal. *)
Lemma hex_byte_lower (b : N) :
  (b < 256)%N → Forall lower_hex (list_ascii_of_string (MD5.hex_byte b)).
Proof.
  intros Hb.
  assert (Forall (λ n, Forall lower_hex
                         (list_ascii_of_string (MD5.hex_byte (N.of_nat n))))
            (seq 0 256)) as Hall.
  { apply (bool_decide_unpack _). vm_compute. reflexivity. }
  rewrite Forall_forall in Hall. specialize (Hall (N.to_nat b)).
  rewrite N2Nat.id in Hall. apply Hall. apply elem_of_seq. lia.
Qed.

Lemma bytes_le_bound width x :
  Forall (λ b, (b < 256)%N) (MD5.bytes_le width x).
Proof.
  unfold MD5.bytes_le. apply Forall_fmap, Forall_forall. intros k _. simpl.
  change 255%N with (N.ones 8). rewrite N.land_ones.
  by apply N.mod_lt.
Qed.

Lemma list_ascii_of_string_append (s1 s2 : string) :
  list_ascii_of_string (s1 +:+ s2)
  = list_ascii_of_string s1 ++ list_ascii_of_string s2.
Proof. induction s1 as [|a s1 IH]; simpl; [done | by rewrite IH]. Qed.

Lemma hexdigest_lower_hex body :
  String.length (MD5.hexdigest body) = 32
  ∧ Forall lower_hex (list_ascii_of_string (MD5.hexdigest body)).
Proof.
  split; [reflexivity|].
  unfold MD5.hexdigest.
  assert (Forall (λ b, (b < 256)%N) (MD5.digest body)) as Hbytes.
  { unfold MD5.digest. rewrite !Forall_app. repeat split; apply bytes_le_bound. }
  induction Hbytes as [|b bytes Hb _ IH]; [constructor|].
  cbn [foldr]. rewrite list_ascii_of_string_append. apply Forall_app.
  split; [by apply hex_byte_lower | done].
Qed.

(** X14: every digest in the store a run saves is an MD5 hex digest: 32
    characters, each a lower-case hexadecimal digit. *)
Theorem saved_digests_are_hex env cfg p :
  ∃ changes q saved,
    check_for_changes env cfg p = (Returned changes, q)
    ∧ hash_storage q = Some (Decodable saved)
    ∧ ∀ name digest,
        saved !! name = Some digest →
        String.length digest = 32
        ∧ Forall lower_hex (list_ascii_of_string digest).
Proof.
  eexists _, _, _. split; [apply check_for_changes_eq|].
  cbn [hash_storage]. split; [done|].
  intros name digest Hd. apply records_values in Hd as [Hd|[body ->]].
  - by rewrite lookup_empty in Hd.
  - apply hexdigest_lower_hex.
Qed.

(** X15: a run in which nothing changed rewrites the store with the
    mapping it found.  When the store holds digests for the configured
    names only, and every target is fetched successfully with the digest
    stored for it, the run returns no entry and the hash file is the same
    after the run. *)
Theorem quiet_run_keeps_store env cfg p hashes :
  NoDup cfg.*1 →
  hash_storage p = Some (Decodable hashes) →
  (∀ name, is_Some (hashes !! name) → name ∈ cfg.*1) →
  (∀ i name url, cfg !! i = Some (name, url) →
     ∃ body, attempt env (requests_sent p + i) url = Returned body
             ∧ hashes !! name = Some (MD5.hexdigest body)) →
  ∃ q,
    check_for_changes env cfg p = (Returned [], q)
    ∧ hash_storage q = hash_storage p.
Proof.
  intros Hnd Hfile Hdom Hquiet.
  assert (reports env hashes cfg (requests_sent p) (clock_reads p) = [])
    as Hnil.
  { apply elem_of_nil_inv. intros c Hc.
    apply reports_inv in Hc as (i & name & url & t & Hi & Hc).
    destruct (Hquiet i name url Hi) as (body & Hok & Hold).
    rewrite Hok in Hc. simpl in Hc. rewrite Hold, decide_True in Hc by done.
    by apply elem_of_nil in Hc. }
  eexists. rewrite check_for_changes_eq, Hfile. cbn [persisted].
  rewrite Hnil. split; [reflexivity|]. cbn [hash_storage].
  do 2 f_equal. apply map_eq. intros name.
  destruct (decide (name ∈ cfg.*1)) as [Hin|Hnotin].
  - apply list_elem_of_fmap in Hin as ([n url] & -> & Hin).
    apply list_elem_of_lookup in Hin as [i Hi]. simpl.
    destruct (Hquiet i n url Hi) as (body & Hok & Hold).
    by rewrite (records_lookup env cfg _ _ i n url Hnd Hi),
      recorded_lookup_eq, Hok, Hold.
  - rewrite records_notin, lookup_empty by done. symmetry.
    apply eq_None_not_Some. intros Hsome. by apply Hnotin, Hdom.
Qed.

Lemma quiet_run_keeps_store_witness :
  ∃ q,
    check_for_changes (world (served 200 "OK" site_a "world")) two_sites
      (boot (Some (Decodable {[ "A" := digest_world; "B" := digest_hello ]})))
    = (Returned [], q)
    ∧ hash_storage q
      = hash_storage
          (boot (Some (Decodable {[ "A" := digest_world;
                                    "B" := digest_hello ]}))).
Proof.
  apply (quiet_run_keeps_store (world (served 200 "OK" site_a "world"))
           two_sites
           (boot (Some (Decodable {[ "A" := digest_world;
                                     "B" := digest_hello ]})))
           {[ "A" := digest_world; "B" := digest_hello ]}).
  - apply (bool_decide_unpack _). vm_compute. reflexivity.
  - reflexivity.
  - intros name [digest Hd].
    destruct (decide (name = "A")) as [->|HA]; [by left|].
    destruct (decide (name = "B")) as [->|HB]; [by right; left|].
    rewrite lookup_insert_ne, lookup_singleton_ne in Hd by done. discriminate.
  - intros [|[|i]] name url Hi; [| |discriminate Hi].
    + injection Hi as <- <-. exists (list_byte_of_string "world").
      split; vm_compute; reflexivity.
    + injection Hi as <- <-. exists (list_byte_of_string "hello").
      split; vm_compute; reflexivity.
Defined.

(** ** The raw script *)

Section RawRun.
Context (env : Raw.Env).
Implicit Types (last_hashes cur : gmap string string).
Implicit Types (items : list (string * string)) (p : Raw.Process).

Lemma raw_advance_advance p l1 l2 r1 r2 c1 c2 s1 s2 :
  raw_advance (raw_advance p l1 r1 c1 s1) l2 r2 c2 s2
  = raw_advance p (l1 ++ l2) (r1 + r2) (c1 + c2) (s1 + s2).
Proof.
  unfold raw_advance; simpl. rewrite <- app_assoc. f_equal; lia.
Qed.

Lemma raw_advance_nothing p : raw_advance p [] 0 0 0 = p.
Proof.
  destruct p; unfold raw_advance; simpl. rewrite app_nil_r. f_equal; lia.
Qed.

(** One iteration whose request returns or raises a [RequestException]
    does what the typed iteration does. *)
Lemma raw_loop_body_eq last_hashes name url cur chg p :
  request_ok (Raw.network env (Raw.requests_sent p) url 15) →
  let o := attempt (typed_env env) (Raw.requests_sent p) url in
  let new :=
    reported last_hashes name url o (Raw.clock env (Raw.clock_reads p)) in
  Raw.loop_body env last_hashes (name, url) (cur, chg) p
  = (Raw.Ok (recorded name o cur, chg ++ new),
     raw_advance p (logged last_hashes name url o) 1 (length new) 1).
Proof.
  intros Hok o new. subst o new.
  unfold Raw.loop_body, attempt, typed_env, typed_outcome,
    Raw.try_except_RequestException, Raw.requests_get, raw_advance, recorded,
    reported, logged, mbind, Raw.R_bind, mret, Raw.R_ret, Raw.raise_for_status,
    Raw.print, Raw.datetime_now_isoformat, Raw.time_sleep.
  cbn [network].
  destruct (Raw.network env (Raw.requests_sent p) url 15) as [response|e];
    simpl.
  2: { destruct e; simpl in *; try done. repeat f_equal; lia. }
  destruct (raise_for_status response) as [[]|e]; simpl.
  2: { repeat f_equal; lia. }
  rewrite py_in_lookup.
  destruct (last_hashes !! name) as [old|] eqn:Hold; simpl.
  - rewrite (lookup_total_correct _ _ _ Hold).
    destruct (decide (old = MD5.hexdigest (content response))) as [->|Hne].
    + rewrite (bool_decide_eq_false_2 (_ ≠ _)) by naive_solver. simpl.
      rewrite app_nil_r. repeat f_equal; lia.
    + rewrite (bool_decide_eq_true_2 (_ ≠ _)) by done. simpl.
      repeat f_equal; lia.
  - rewrite app_nil_r. repeat f_equal; lia.
Qed.

(** An exception of a request that is not a [RequestException] leaves the
    iteration: nothing is printed, nothing appended, no sleep. *)
Lemma raw_loop_body_escapes last_hashes name url locals p e :
  Raw.network env (Raw.requests_sent p) url 15 = Raw.Exc e →
  (∀ e', e ≠ Raw.RequestError e') →
  Raw.loop_body env last_hashes (name, url) locals p
  = (Raw.Exc e, raw_advance p [] 1 0 0).
Proof.
  intros Hraise Hforeign. destruct locals as [cur chg].
  unfold Raw.loop_body, Raw.try_except_RequestException, Raw.requests_get,
    raw_advance, mbind, Raw.R_bind.
  rewrite Hraise. simpl.
  destruct e as [e'| | |]; [by destruct (Hforeign e')| | |];
    rewrite app_nil_r; repeat f_equal; lia.
Qed.

(** No iteration writes a file, however it ends. *)
Lemma raw_loop_body_frame last_hashes target locals p :
  Raw.hash_storage (Raw.loop_body env last_hashes target locals p).2
  = Raw.hash_storage p
  ∧ Raw.xml_output (Raw.loop_body env last_hashes target locals p).2
    = Raw.xml_output p.
Proof.
  destruct target as [name url].
  destruct (Raw.network env (Raw.requests_sent p) url 15) as [response|e]
    eqn:Hnet.
  - destruct locals as [cur chg].
    rewrite raw_loop_body_eq by (by rewrite Hnet). done.
  - destruct e as [e'|msg|msg|kind msg].
    + destruct locals as [cur chg].
      rewrite raw_loop_body_eq by (by rewrite Hnet). done.
    + by rewrite (raw_loop_body_escapes _ _ _ _ _ _ Hnet).
    + by rewrite (raw_loop_body_escapes _ _ _ _ _ _ Hnet).
    + by rewrite (raw_loop_body_escapes _ _ _ _ _ _ Hnet).
Qed.

Lemma raw_loop_frame last_hashes items : ∀ locals p,
  Raw.hash_storage (Raw.loop env last_hashes items locals p).2
  = Raw.hash_storage p
  ∧ Raw.xml_output (Raw.loop env last_hashes items locals p).2
    = Raw.xml_output p.
Proof.
  induction items as [|target rest IH]; intros locals p; [done|].
  cbn [Raw.loop]. unfold mbind, Raw.R_bind.
  pose proof (raw_loop_body_frame last_hashes target locals p) as [Hh Hx].
  destruct (Raw.loop_body env last_hashes target locals p) as [[locals'|e] q];
    simpl in Hh, Hx.
  - destruct (IH locals' q) as [Hh' Hx']. by rewrite Hh', Hx'.
  - done.
Qed.

(** The loop over a list that continues another. *)
Lemma raw_loop_app last_hashes pre items : ∀ locals p,
  Raw.loop env last_hashes (pre ++ items) locals p
  = match Raw.loop env last_hashes pre locals p with
    | (Raw.Ok locals', q) => Raw.loop env last_hashes items locals' q
    | (Raw.Exc e, q) => (Raw.Exc e, q)
    end.
Proof.
  induction pre as [|target pre IH]; intros locals p; [done|].
  cbn [app Raw.loop]. unfold mbind, Raw.R_bind.
  destruct (Raw.loop_body env last_hashes target locals p) as [[locals'|e] q];
    [apply IH | done].
Qed.

(** When every request returns or raises a [RequestException], the loop
    is the pure reading of the typed loop. *)
Lemma raw_loop_eq last_hashes items : ∀ cur chg p,
  (∀ k url timeout, request_ok (Raw.network env k url timeout)) →
  Raw.loop env last_hashes items (cur, chg) p
  = (Raw.Ok (records (typed_env env) items (Raw.requests_sent p) cur,
             chg ++ reports (typed_env env) last_hashes items
                      (Raw.requests_sent p) (Raw.clock_reads p)),
     raw_advance p (logs (typed_env env) last_hashes items (Raw.requests_sent p))
       (length items)
       (length (reports (typed_env env) last_hashes items
                  (Raw.requests_sent p) (Raw.clock_reads p)))
       (length items)).
Proof.
  intros cur chg p Hok. revert cur chg p.
  induction items as [|[name url] rest IH]; intros cur chg p.
  - simpl. unfold mret, Raw.R_ret. rewrite raw_advance_nothing, app_nil_r. done.
  - cbn [Raw.loop]. unfold mbind at 1, Raw.R_bind at 1.
    rewrite raw_loop_body_eq by apply Hok. rewrite IH. clear IH.
    cbn [raw_advance Raw.requests_sent Raw.clock_reads records reports logs
         typed_env clock].
    rewrite !Nat.add_1_r, raw_advance_advance, <- !app_assoc, length_app.
    reflexivity.
Qed.

End RawRun.

Lemma raw_attempt_raises (env : Raw.Env) k url e :
  Raw.request_fails (Raw.network env k url 15) e →
  request_ok (Raw.network env k url 15)
  ∧ attempt (typed_env env) k url = Raised e.
Proof.
  unfold attempt, typed_env. cbn [network].
  intros [Hraise|(response & Hreturn & _ & Hstatus)].
  - by rewrite Hraise.
  - by rewrite Hreturn; simpl; rewrite Hstatus.
Qed.

(** C6, amended: a fetch that fails by a timeout, a connection error (or
    another [RequestException] of [requests.get]) or by a response with a
    status from 400 to 599 is caught for its target alone.  Once the loop
    has reached the target, its iteration ends normally whatever the store
    holds for it: it prints the error, appends the Error entry and leaves
    [current_hashes] alone, and the loop goes on with the remaining
    targets. *)
Theorem failed_fetch_is_caught env last_hashes pre name url rest locals p
    cur chg p1 e :
  Raw.loop env last_hashes pre locals p = (Raw.Ok (cur, chg), p1) →
  Raw.request_fails (Raw.network env (Raw.requests_sent p1) url 15) e →
  Raw.loop env last_hashes (pre ++ (name, url) :: rest) locals p
  = Raw.loop env last_hashes rest
      (cur,
       chg ++ [{| change_name := name; change_url := url;
                  change_timestamp := Raw.clock env (Raw.clock_reads p1);
                  change_status := "Error: " +:+ str_exception e;
                  change_hash_change := "N/A" |}])
      {| Raw.hash_storage := Raw.hash_storage p1;
         Raw.xml_output := Raw.xml_output p1;
         Raw.stdout :=
           Raw.stdout p1
           ++ ["❌ Error checking " +:+ name +:+ " (" +:+ url +:+ "): "
               +:+ str_exception e];
         Raw.requests_sent := Raw.requests_sent p1 + 1;
         Raw.clock_reads := Raw.clock_reads p1 + 1;
         Raw.slept := Raw.slept p1 + 1 |}.
Proof.
  intros Hpre Hfail. apply raw_attempt_raises in Hfail as [Hok Hraised].
  rewrite raw_loop_app, Hpre. cbn [Raw.loop].
  unfold mbind at 1, Raw.R_bind at 1.
  rewrite raw_loop_body_eq by done. by rewrite Hraised.
Qed.

Lemma failed_fetch_is_caught_witness :
  Raw.loop (raw_world (Raw.Exc (Raw.RequestError read_timeout)))
    {[ "A" := digest_world ]} ([("B", site_b)] ++ ("A", site_a) :: [("C", site_b)])
    (∅, []) (raw_boot None)
  = Raw.loop (raw_world (Raw.Exc (Raw.RequestError read_timeout)))
      {[ "A" := digest_world ]} [("C", site_b)]
      ({[ "B" := digest_hello ]},
       [{| change_name := "B"; change_url := site_b;
           change_timestamp := sample_clock 0;
           change_status := "Initial Check (No history recorded)";
           change_hash_change := "Initial Hash: 5d41402a..." |}]
       ++ [{| change_name := "A"; change_url := site_a;
              change_timestamp :=
                Raw.clock (raw_world (Raw.Exc (Raw.RequestError read_timeout)))
                  (Raw.clock_reads (raw_advance (raw_boot None) [] 1 1 1));
              change_status := "Error: " +:+ str_exception read_timeout;
              change_hash_change := "N/A" |}])
      {| Raw.hash_storage :=
           Raw.hash_storage (raw_advance (raw_boot None) [] 1 1 1);
         Raw.xml_output :=
           Raw.xml_output (raw_advance (raw_boot None) [] 1 1 1);
         Raw.stdout :=
           Raw.stdout (raw_advance (raw_boot None) [] 1 1 1)
           ++ ["❌ Error checking " +:+ "A" +:+ " (" +:+ site_a +:+ "): "
               +:+ str_exception read_timeout];
         Raw.requests_sent :=
           Raw.requests_sent (raw_advance (raw_boot None) [] 1 1 1) + 1;
         Raw.clock_reads :=
           Raw.clock_reads (raw_advance (raw_boot None) [] 1 1 1) + 1;
         Raw.slept := Raw.slept (raw_advance (raw_boot None) [] 1 1 1) + 1 |}.
Proof.
  apply (failed_fetch_is_caught
           (raw_world (Raw.Exc (Raw.RequestError read_timeout)))
           {[ "A" := digest_world ]} [("B", site_b)] "A" site_a [("C", site_b)]
           (∅, []) (raw_boot None) {[ "B" := digest_hello ]} _
           (raw_advance (raw_boot None) [] 1 1 1) read_timeout).
  - vm_compute. reflexivity.
  - left. reflexivity.
Defined.

(** The load on a file that is absent, a dictionary or invalid JSON. *)
Lemma raw_load_last_hashes_eq (p : Raw.Process) :
  load_ok (Raw.hash_storage p) →
  Raw.load_last_hashes p
  = (Raw.Ok (persisted (typed_file <$> Raw.hash_storage p)),
     raw_advance p (load_warning (typed_file <$> Raw.hash_storage p)) 0 0 0).
Proof.
  intros Hload.
  unfold Raw.load_last_hashes, Raw.try_except_JSONDecodeError,
    Raw.os_path_exists, Raw.json_load, mbind, Raw.R_bind, mret, Raw.R_ret,
    Raw.print.
  destruct (Raw.hash_storage p) as [[hashes|[e|msg|msg|kind msg]]|] eqn:Hf;
    simpl in *; try done; rewrite ?Hf; simpl;
    rewrite ?raw_advance_nothing; try done.
  unfold raw_advance. rewrite Hf. repeat f_equal; lia.
Qed.

(** [check_for_changes] when nothing escapes: the typed run. *)
Lemma raw_check_for_changes_eq (env : Raw.Env) cfg (p : Raw.Process) :
  load_ok (Raw.hash_storage p) →
  (∀ k url timeout, request_ok (Raw.network env k url timeout)) →
  let last_hashes := persisted (typed_file <$> Raw.hash_storage p) in
  let changes :=
    reports (typed_env env) last_hashes cfg (Raw.requests_sent p)
      (Raw.clock_reads p) in
  Raw.check_for_changes env cfg p
  = (Raw.Ok changes,
     {| Raw.hash_storage :=
          Some (Raw.Ok (records (typed_env env) cfg (Raw.requests_sent p) ∅));
        Raw.xml_output := Raw.xml_output p;
        Raw.stdout :=
          Raw.stdout p ++ load_warning (typed_file <$> Raw.hash_storage p)
          ++ logs (typed_env env) last_hashes cfg (Raw.requests_sent p);
        Raw.requests_sent := Raw.requests_sent p + length cfg;
        Raw.clock_reads := Raw.clock_reads p + length changes;
        Raw.slept := Raw.slept p + length cfg |}).
Proof.
  intros Hload Hok last_hashes changes. subst last_hashes changes.
  unfold Raw.check_for_changes, mbind at 1, Raw.R_bind at 1.
  rewrite raw_load_last_hashes_eq by done.
  unfold mbind at 1, Raw.R_bind at 1. rewrite raw_loop_eq by done.
  unfold mbind, Raw.R_bind, Raw.json_dump, mret, Raw.R_ret.
  cbn [raw_advance Raw.requests_sent Raw.clock_reads Raw.hash_storage
       Raw.xml_output Raw.stdout Raw.slept fst snd].
  rewrite !Nat.add_0_r, <- app_assoc. reflexivity.
Qed.

(** C8, as worded, fails: a hash file whose bytes are not UTF-8 exists and
    cannot be parsed, [json.load] raises [UnicodeDecodeError], which line
    25 does not catch: the load raises, prints no warning and ends the
    run. *)
Lemma undecodable_bytes_end_the_run :
  ¬ load_tolerates_unparseable (raw_boot (Some (Raw.Exc not_utf8))).
Proof.
  intros Hclaim.
  destruct (Hclaim (Raw.Exc not_utf8) eq_refl) as (q & Hload & _).
  - eexists. by right.
  - vm_compute in Hload. discriminate.
Qed.

(** C8, amended: the load does not fail the run when the hash file is
    missing, where it returns the empty mapping and prints nothing, or when
    the file exists and [json.load] rejects it with [JSONDecodeError], where
    it prints the warning and returns the empty mapping.  It changes
    nothing but the console; a dictionary is returned as it is, and any
    other exception of the load leaves [check_for_changes].  In the first
    three cases the run returns as long as no request raises anything but
    a [RequestException]. *)
Theorem load_recovers_from_missing_or_invalid_json (p : Raw.Process) :
  match Raw.hash_storage p with
  | None => Raw.load_last_hashes p = (Raw.Ok ∅, p)
  | Some (Raw.Ok hashes) => Raw.load_last_hashes p = (Raw.Ok hashes, p)
  | Some (Raw.Exc (Raw.JSONDecodeError _)) =>
      Raw.load_last_hashes p
      = (Raw.Ok ∅,
         {| Raw.hash_storage := Raw.hash_storage p;
            Raw.xml_output := Raw.xml_output p;
            Raw.stdout :=
              Raw.stdout p
              ++ ["Warning: Could not decode url_hashes.json. Starting fresh."];
            Raw.requests_sent := Raw.requests_sent p;
            Raw.clock_reads := Raw.clock_reads p;
            Raw.slept := Raw.slept p |})
  | Some (Raw.Exc e) =>
      Raw.load_last_hashes p = (Raw.Exc e, p)
      ∧ ∀ env cfg, Raw.check_for_changes env cfg p = (Raw.Exc e, p)
  end
  ∧ (load_ok (Raw.hash_storage p) →
     ∀ env cfg,
       (∀ k url timeout, request_ok (Raw.network env k url timeout)) →
       ∃ changes q, Raw.check_for_changes env cfg p = (Raw.Ok changes, q)).
Proof.
  split.
  - unfold Raw.check_for_changes, Raw.load_last_hashes,
      Raw.try_except_JSONDecodeError, Raw.os_path_exists, Raw.json_load,
      mbind, Raw.R_bind, mret, Raw.R_ret, Raw.print.
    destruct (Raw.hash_storage p) as [[hashes|[e|msg|msg|kind msg]]|] eqn:Hf;
      simpl; rewrite ?Hf; try done.
  - intros Hload env cfg Hok. eexists _, _.
    by apply raw_check_for_changes_eq.
Qed.

(** [main] when nothing escapes. *)
Lemma raw_main_eq (env : Raw.Env) cfg (p : Raw.Process) :
  load_ok (Raw.hash_storage p) →
  (∀ k url timeout, request_ok (Raw.network env k url timeout)) →
  let last_hashes := persisted (typed_file <$> Raw.hash_storage p) in
  let changes :=
    reports (typed_env env) last_hashes cfg (Raw.requests_sent p)
      (Raw.clock_reads p) in
  Raw.main env cfg p
  = (Raw.Ok tt,
     {| Raw.hash_storage :=
          Some (Raw.Ok (records (typed_env env) cfg (Raw.requests_sent p) ∅));
        Raw.xml_output :=
          Some (El "MonitoringReport" None
                  ([El "Status"
                      (Some (if bool_decide (changes ≠ [])
                             then str_of_nat (length changes)
                                  +:+ " Change(s) or Initial Check(s) Detected."
                             else "No changes detected since the last run."))
                      [];
                    El "TimestampGenerated"
                      (Some (Raw.clock env (Raw.clock_reads p + length changes)))
                      []]
                   ++ (ChangeItem <$> changes)));
        Raw.stdout :=
          Raw.stdout p
          ++ ["--- Web Monitoring Buoy Started ---"]
          ++ load_warning (typed_file <$> Raw.hash_storage p)
          ++ logs (typed_env env) last_hashes cfg (Raw.requests_sent p)
          ++ [newline +:+ "Report written to " +:+ XML_OUTPUT_FILE;
              "--- Monitoring Run Complete ---"];
        Raw.requests_sent := Raw.requests_sent p + length cfg;
        Raw.clock_reads := S (Raw.clock_reads p + length changes);
        Raw.slept := Raw.slept p + length cfg |}).
Proof.
  intros Hload Hok last_hashes changes. subst last_hashes changes.
  unfold Raw.main. unfold mbind at 1, Raw.R_bind at 1, Raw.print at 1.
  unfold mbind at 1, Raw.R_bind at 1.
  rewrite raw_check_for_changes_eq by done.
  cbn [Raw.hash_storage Raw.requests_sent Raw.clock_reads Raw.xml_output
       Raw.stdout Raw.slept].
  unfold Raw.generate_xml_report, mbind, Raw.R_bind,
    Raw.datetime_now_isoformat, Raw.tree_write, Raw.print.
  cbn [Raw.hash_storage Raw.requests_sent Raw.clock_reads Raw.xml_output
       Raw.stdout Raw.slept].
  rewrite <- !app_assoc. reflexivity.
Qed.

(** When the hash file is absent, a dictionary or invalid JSON, and every
    request returns or raises a [RequestException], the raw script is the
    typed script. *)
Lemma typed_run_is_raw_run (env : Raw.Env) cfg (p : Raw.Process) :
  load_ok (Raw.hash_storage p) →
  (∀ k url timeout, request_ok (Raw.network env k url timeout)) →
  ∃ q,
    Raw.main env cfg p = (Raw.Ok tt, q)
    ∧ main (typed_env env) cfg (typed_process p) = (Returned tt, typed_process q)
    ∧ typed_outcome (Raw.check_for_changes env cfg p).1
      = (check_for_changes (typed_env env) cfg (typed_process p)).1.
Proof.
  intros Hload Hok. eexists. split; [by apply raw_main_eq|]. split.
  - rewrite main_eq. reflexivity.
  - rewrite raw_check_for_changes_eq, check_for_changes_eq by done.
    reflexivity.
Qed.

(** X12: when the hash file is absent, a dictionary or invalid JSON, and
    every request returns or raises a [RequestException], the script
    returns, writes both files, and its console output is the start
    banner, then at most one line for the load and one for each target,
    then the line naming the report and the end banner. *)
Theorem main_console (env : Raw.Env) cfg (p : Raw.Process) :
  load_ok (Raw.hash_storage p) →
  (∀ k url timeout, request_ok (Raw.network env k url timeout)) →
  ∃ middle saved report q,
    Raw.main env cfg p = (Raw.Ok tt, q)
    ∧ Raw.stdout q
      = Raw.stdout p
        ++ ["--- Web Monitoring Buoy Started ---"]
        ++ middle
        ++ [newline +:+ "Report written to monitoring_report.xml";
            "--- Monitoring Run Complete ---"]
    ∧ length middle ≤ 1 + length cfg
    ∧ Raw.hash_storage q = Some (Raw.Ok saved)
    ∧ Raw.xml_output q = Some report.
Proof.
  intros Hload Hok.
  exists (load_warning (typed_file <$> Raw.hash_storage p)
          ++ logs (typed_env env)
               (persisted (typed_file <$> Raw.hash_storage p)) cfg
               (Raw.requests_sent p)).
  eexists _, _, _. split; [by apply raw_main_eq|].
  cbn [Raw.stdout Raw.hash_storage Raw.xml_output].
  split; [rewrite <- !app_assoc; reflexivity|].
  split; [|split; reflexivity].
  rewrite length_app.
  pose proof (logs_length (typed_env env)
                (persisted (typed_file <$> Raw.hash_storage p)) cfg
                (Raw.requests_sent p)).
  assert (length (load_warning (typed_file <$> Raw.hash_storage p)) ≤ 1);
    [|lia].
  destruct (Raw.hash_storage p) as [[hashes|e]|]; simpl; lia.
Qed.

Lemma main_console_witness :
  ∃ middle saved report q,
    Raw.main (raw_world (Raw.Exc (Raw.RequestError read_timeout))) two_sites
      (raw_boot (Some (Raw.Exc (Raw.JSONDecodeError "Expecting value"))))
    = (Raw.Ok tt, q)
    ∧ Raw.stdout q
      = Raw.stdout
          (raw_boot (Some (Raw.Exc (Raw.JSONDecodeError "Expecting value"))))
        ++ ["--- Web Monitoring Buoy Started ---"]
        ++ middle
        ++ [newline +:+ "Report written to monitoring_report.xml";
            "--- Monitoring Run Complete ---"]
    ∧ length middle ≤ 1 + length two_sites
    ∧ Raw.hash_storage q = Some (Raw.Ok saved)
    ∧ Raw.xml_output q = Some report.
Proof.
  apply (main_console (raw_world (Raw.Exc (Raw.RequestError read_timeout)))
           two_sites
           (raw_boot (Some (Raw.Exc (Raw.JSONDecodeError "Expecting value"))))).
  - exact I.
  - intros k url timeout. simpl. by destruct (String.eqb url site_a).
Defined.

Lemma raw_load_last_hashes_frame (p : Raw.Process) :
  Raw.hash_storage (Raw.load_last_hashes p).2 = Raw.hash_storage p
  ∧ Raw.xml_output (Raw.load_last_hashes p).2 = Raw.xml_output p.
Proof.
  unfold Raw.load_last_hashes, Raw.try_except_JSONDecodeError,
    Raw.os_path_exists, Raw.json_load, mbind, Raw.R_bind, mret, Raw.R_ret,
    Raw.print.
  destruct (Raw.hash_storage p) as [[hashes|[e|msg|msg|kind msg]]|] eqn:Hf;
    simpl; rewrite ?Hf; done.
Qed.

(** A run that ends on an exception has written no file. *)
Lemma raw_check_for_changes_frame (env : Raw.Env) cfg (p : Raw.Process) e q :
  Raw.check_for_changes env cfg p = (Raw.Exc e, q) →
  Raw.hash_storage q = Raw.hash_storage p
  ∧ Raw.xml_output q = Raw.xml_output p.
Proof.
  unfold Raw.check_for_changes, mbind at 1, Raw.R_bind at 1.
  pose proof (raw_load_last_hashes_frame p) as [Hh0 Hx0].
  destruct (Raw.load_last_hashes p) as [[last_hashes|e0] q0];
    simpl in Hh0, Hx0.
  - unfold mbind at 1, Raw.R_bind at 1.
    pose proof (raw_loop_frame env last_hashes cfg (∅, []) q0) as [Hh Hx].
    destruct (Raw.loop env last_hashes cfg (∅, []) q0) as [[locals|e1] q1];
      simpl in Hh, Hx; [done|].
    intros [= _ <-]. by rewrite Hh, Hx.
  - by intros [= _ <-].
Qed.

(** X16: when the script ends on an exception, neither the hash store
    nor the report has been written: both files are as the script found
    them. *)
Theorem abort_leaves_files_untouched (env : Raw.Env) cfg (p : Raw.Process) e q :
  Raw.main env cfg p = (Raw.Exc e, q) →
  Raw.hash_storage q = Raw.hash_storage p
  ∧ Raw.xml_output q = Raw.xml_output p.
Proof.
  unfold Raw.main. unfold mbind at 1, Raw.R_bind at 1, Raw.print at 1.
  unfold mbind at 1, Raw.R_bind at 1.
  destruct (Raw.check_for_changes env cfg _) as [[changes|e0] q0] eqn:Hrun.
  - unfold Raw.generate_xml_report, mbind, Raw.R_bind,
      Raw.datetime_now_isoformat, Raw.tree_write, Raw.print. discriminate.
  - intros [= _ <-]. by apply raw_check_for_changes_frame in Hrun.
Qed.

Lemma abort_leaves_files_untouched_witness :
  Raw.hash_storage
    (Raw.main (raw_world (Raw.Exc bad_host)) two_sites
       (raw_boot (Some (Raw.Ok {[ "A" := digest_world ]})))).2
  = Raw.hash_storage (raw_boot (Some (Raw.Ok {[ "A" := digest_world ]})))
  ∧ Raw.xml_output
      (Raw.main (raw_world (Raw.Exc bad_host)) two_sites
         (raw_boot (Some (Raw.Ok {[ "A" := digest_world ]})))).2
    = Raw.xml_output (raw_boot (Some (Raw.Ok {[ "A" := digest_world ]}))).
Proof.
  apply (abort_leaves_files_untouched (raw_world (Raw.Exc bad_host)) two_sites
           (raw_boot (Some (Raw.Ok {[ "A" := digest_world ]}))) bad_host).
  vm_compute. reflexivity.
Defined.

(** X17: an exception of a request that is not a [RequestException] is
    not caught.  Once the loop has reached the target, it ends there on
    that exception: nothing is printed or appended for the target, the
    sleep is skipped and the remaining targets are not requested. *)
Theorem foreign_exception_ends_the_loop (env : Raw.Env) last_hashes pre name url
    rest locals (p : Raw.Process) locals1 p1 e :
  Raw.loop env last_hashes pre locals p = (Raw.Ok locals1, p1) →
  Raw.network env (Raw.requests_sent p1) url 15 = Raw.Exc e →
  (∀ e', e ≠ Raw.RequestError e') →
  Raw.loop env last_hashes (pre ++ (name, url) :: rest) locals p
  = (Raw.Exc e,
     {| Raw.hash_storage := Raw.hash_storage p1;
        Raw.xml_output := Raw.xml_output p1;
        Raw.stdout := Raw.stdout p1;
        Raw.requests_sent := Raw.requests_sent p1 + 1;
        Raw.clock_reads := Raw.clock_reads p1;
        Raw.slept := Raw.slept p1 |}).
Proof.
  intros Hpre Hraise Hforeign. rewrite raw_loop_app, Hpre. cbn [Raw.loop].
  unfold mbind at 1, Raw.R_bind at 1.
  rewrite (raw_loop_body_escapes env last_hashes name url locals1 p1 e)
    by done.
  unfold raw_advance. rewrite app_nil_r, !Nat.add_0_r. reflexivity.
Qed.

Lemma foreign_exception_ends_the_loop_witness :
  Raw.loop (raw_world (Raw.Exc bad_host)) ∅
    ([("B", site_b)] ++ ("A", site_a) :: [("C", site_b)]) (∅, [])
    (raw_boot None)
  = (Raw.Exc bad_host,
     {| Raw.hash_storage :=
          Raw.hash_storage (raw_advance (raw_boot None) [] 1 1 1);
        Raw.xml_output := Raw.xml_output (raw_advance (raw_boot None) [] 1 1 1);
        Raw.stdout := Raw.stdout (raw_advance (raw_boot None) [] 1 1 1);
        Raw.requests_sent :=
          Raw.requests_sent (raw_advance (raw_boot None) [] 1 1 1) + 1;
        Raw.clock_reads :=
          Raw.clock_reads (raw_advance (raw_boot None) [] 1 1 1);
        Raw.slept := Raw.slept (raw_advance (raw_boot None) [] 1 1 1) |}).
Proof.
  apply (foreign_exception_ends_the_loop (raw_world (Raw.Exc bad_host)) ∅
           [("B", site_b)] "A" site_a [("C", site_b)] (∅, []) (raw_boot None)
           ({[ "B" := digest_hello ]},
            [{| change_name := "B"; change_url := site_b;
                change_timestamp := sample_clock 0;
                change_status := "Initial Check (No history recorded)";
                change_hash_change := "Initial Hash: 5d41402a..." |}])
           (raw_advance (raw_boot None) [] 1 1 1) bad_host).
  - vm_compute. reflexivity.
  - reflexivity.
  - discriminate.
Defined.
